(** * Supply-chain dashboard: the data pipeline of [app.py]

    A shallow embedding of the data-preparation code of the dashboard:
    [preprocess] (derived columns), the sidebar filter ([mask], [df_filtered]),
    the scalar metrics of the four tabs and the group-by / ranking tables
    behind the charts.

    Conventions of the embedding.
    - A data frame is the list of its rows, in index order; a column
      expression of the source is the same expression applied to each row.
    - A missing string or date cell (NaN, None, NaT) is [None].
    - The numeric measures read from the CSV (Sales, Profit, Discount,
      Shipping_Cost, Quantity) are float64 columns: a cell is a binary64
      value, NaN when it is missing, and the arithmetic on them is the IEEE
      754 arithmetic of [PrimFloat], with its rounding, overflow and
      infinities.  (A column of whole numbers without gaps is read as int64;
      its values and sums are the same numbers below 2^53.)
    - Day counts are whole numbers.  The mean of a column of day counts is
      kept as an exact ratio; the binary64 value the program holds is that
      ratio rounded to nearest ([to_binary64]).
    - [pd.to_datetime] and numpy's [argsort] are library code: they are
      parameters of the definitions that call them. *)

From Stdlib Require Import ZArith QArith List String Ascii Bool Lia.
From Stdlib Require Import Floats.
From Stdlib Require Import Permutation Sorted OrderedTypeEx.
Import ListNotations.

Local Open Scope string_scope.
Local Open Scope Z_scope.
Local Open Scope list_scope.

(** ** Calendar dates and timestamps *)

(** [datetime.date]: compared as the triple (year, month, day). *)
Record date := mkdate { year : Z; month : Z; day : Z }.

Definition date_le (a b : date) : Prop :=
  year a < year b \/
  (year a = year b /\ (month a < month b \/ (month a = month b /\ day a <= day b))).

Definition date_leb (a b : date) : bool :=
  (year a <? year b) ||
  ((year a =? year b) && ((month a <? month b) || ((month a =? month b) && (day a <=? day b)))).

Definition is_leap (y : Z) : bool :=
  (y mod 4 =? 0) && (negb (y mod 100 =? 0) || (y mod 400 =? 0)).

Definition days_before_year (y : Z) : Z :=
  let y := y - 1 in y * 365 + y / 4 - y / 100 + y / 400.

Definition days_before_month (y m : Z) : Z :=
  nth (Z.to_nat (m - 1)) [0; 31; 59; 90; 120; 151; 181; 212; 243; 273; 304; 334] 0
  + (if (2 <? m) && is_leap y then 1 else 0).

Definition days_in_month (y m : Z) : Z :=
  if (m =? 2) && is_leap y then 29
  else nth (Z.to_nat (m - 1)) [31; 28; 31; 30; 31; 30; 31; 31; 30; 31; 30; 31] 0.

(** [date.toordinal()]: days since 0001-01-01, that day being 1. *)
Definition toordinal (d : date) : Z :=
  days_before_year (year d) + days_before_month (year d) (month d) + day d.

(** A pandas [Timestamp]: a calendar date and the nanoseconds since its
    midnight.  [NaT] is [None] in a column of timestamps. *)
Record Timestamp := mkTimestamp { ts_date : date; ts_nanos : Z }.

Definition NS_PER_DAY : Z := 86400000000000.

Definition midnight (y m d : Z) : Timestamp := mkTimestamp (mkdate y m d) 0.

(** [ship - order] on two timestamp cells: a timedelta in nanoseconds, NaT
    when either side is NaT. *)
Definition sub_timestamp (a b : option Timestamp) : option Z :=
  match a, b with
  | Some x, Some y =>
      Some ((toordinal (ts_date x) - toordinal (ts_date y)) * NS_PER_DAY
            + (ts_nanos x - ts_nanos y))
  | _, _ => None
  end.

(** [.dt.days]: the whole days of a timedelta (floor). *)
Definition dt_days (td : option Z) : option Z :=
  option_map (fun ns => ns / NS_PER_DAY) td.

(** [.dt.date] *)
Definition dt_date (t : option Timestamp) : option date :=
  option_map ts_date t.

(** [.dt.to_period('M').dt.to_timestamp()]: midnight of the first of the month. *)
Definition to_period_M (t : option Timestamp) : option Timestamp :=
  option_map (fun x => midnight (year (ts_date x)) (month (ts_date x)) 1) t.

(** ** Numeric cells *)

(** A float64 cell that holds a value. *)
Definition notnan (x : float) : bool := negb (PrimFloat.is_nan x).

(** [a <= b] on two float64 values: False when either is NaN. *)
Definition fle (a b : float) : Prop := (a <=? b)%float = true.

(** The order of binary64 read off the representation.  The place of a value
    that is not NaN: its class, then its exponent, then its mantissa, the last
    two negated below zero. *)
Definition sf_key (s : spec_float) : Z * Z * Z :=
  match s with
  | S754_nan => (0, 0, 0)
  | S754_zero _ => (0, 0, 0)
  | S754_infinity true => (-2, 0, 0)
  | S754_infinity false => (2, 0, 0)
  | S754_finite true m e => (-1, - e, Zneg m)
  | S754_finite false m e => (1, e, Zpos m)
  end.

Definition key_le (a b : Z * Z * Z) : Prop :=
  let '(c1, e1, m1) := a in
  let '(c2, e2, m2) := b in
  c1 < c2 \/ (c1 = c2 /\ (e1 < e2 \/ (e1 = e2 /\ m1 <= m2))).

(** [Series.replace({0: np.nan})] on one cell; 0.0 and -0.0 both equal 0. *)
Definition replace_zero_nan (x : float) : float :=
  if (x =? 0)%float then nan else x.

(** The conversion of a whole number to float64: the nearest binary64,
    exact below 2^53 in magnitude. *)
Definition Z2float (z : Z) : float :=
  SF2Prim (binary_normalize prec emax z 0 false).

(** A float64 result known by its exact value: NaN, an infinity, or a
    rational.  It describes the mean of a column of whole day counts, whose
    sum and count are exact. *)
Inductive exact64 : Type :=
| NaN
| Inf (negative : bool)
| Fin (q : Q).

Definition is_inf (x : exact64) : bool :=
  match x with
  | Inf _ => true
  | _ => false
  end.

(** The binary64 value of an exact result: the quotient of numerator and
    denominator, rounded to nearest by the division. *)
Definition to_binary64 (x : exact64) : float :=
  match x with
  | NaN => nan
  | Inf s => if s then neg_infinity else infinity
  | Fin q => (Z2float (Qnum q) / Z2float (Zpos (Qden q)))%float
  end.

(** [a > b] on two nullable integer cells: False when either is NaN. *)
Definition gt_cell (a b : option Z) : bool :=
  match a, b with
  | Some x, Some y => y <? x
  | _, _ => false
  end.

(** ** Rows *)

(** The columns read from the CSV.  [D] is the type of a date cell: a string
    as read, a timestamp once parsed. *)
Record Source (D : Type) := mkSource {
  Order_ID : option string;
  Order_Date : D;
  Ship_Date : D;
  Ship_Mode : option string;
  Region : option string;
  Order_Priority : option string;
  Sales : float;
  Profit : float;
  Discount : float;
  Shipping_Cost : float;
  Quantity : float;
  Category : option string;
  Sub_Category : option string;
  Product_Name : option string;
  Customer_ID : option string;
  Customer_Name : option string;
  Segment : option string
}.

Arguments mkSource {D}.
Arguments Order_ID {D}.
Arguments Order_Date {D}.
Arguments Ship_Date {D}.
Arguments Ship_Mode {D}.
Arguments Region {D}.
Arguments Order_Priority {D}.
Arguments Sales {D}.
Arguments Profit {D}.
Arguments Discount {D}.
Arguments Shipping_Cost {D}.
Arguments Quantity {D}.
Arguments Category {D}.
Arguments Sub_Category {D}.
Arguments Product_Name {D}.
Arguments Customer_ID {D}.
Arguments Customer_Name {D}.
Arguments Segment {D}.

Definition RawRow : Type := Source (option string).

(** A row of the frame [preprocess] returns: the source columns, dates
    parsed, and the five derived columns. *)
Record Row := mkRow {
  src : Source (option Timestamp);
  Order_Processing_Time : option Z;
  Standard_SLA_Days : option Z;
  Is_Late : bool;
  Profit_Margin : float;
  order_month : option Timestamp
}.

(** The source columns with the two date cells replaced by [f] of them. *)
Definition with_dates {D E : Type} (f : D -> E) (r : Source D) : Source E :=
  mkSource (Order_ID r) (f (Order_Date r)) (f (Ship_Date r)) (Ship_Mode r)
    (Region r) (Order_Priority r) (Sales r) (Profit r) (Discount r)
    (Shipping_Cost r) (Quantity r) (Category r) (Sub_Category r)
    (Product_Name r) (Customer_ID r) (Customer_Name r) (Segment r).

(** ** preprocess *)

Definition sla_map : list (string * Z) :=
  [("Same Day", 1); ("First Class", 2); ("Second Class", 4); ("Standard Class", 5)].

Fixpoint dict_get {V : Type} (d : list (string * V)) (k : string) : option V :=
  match d with
  | [] => None
  | (k', v) :: rest => if String.eqb k k' then Some v else dict_get rest k
  end.

(** [Series.map(d)] on one cell: a key that is missing or not in [d] gives NaN. *)
Definition map_dict {V : Type} (d : list (string * V)) (c : option string) : option V :=
  match c with
  | Some k => dict_get d k
  | None => None
  end.

(** [Series.fillna(v)] on one cell. *)
Definition fillna {V : Type} (v : V) (c : option V) : option V :=
  match c with
  | Some x => Some x
  | None => Some v
  end.

Section Preprocess.

(** [pd.to_datetime(_, dayfirst=True, errors='coerce')] on one non-missing
    string: [None] when it does not parse.  pandas settles the format of a
    column from its first parseable cell; [to_datetime] is the parse of a
    cell of the table at hand, whatever format that is. *)
Variable to_datetime : string -> option Timestamp.

Definition to_datetime_cell (c : option string) : option Timestamp :=
  match c with
  | Some s => to_datetime s
  | None => None
  end.

Definition preprocess_row (r : RawRow) : Row :=
  let df := with_dates to_datetime_cell r in
  let processing := dt_days (sub_timestamp (Ship_Date df) (Order_Date df)) in
  let sla := fillna 999 (map_dict sla_map (Ship_Mode df)) in
  let late := gt_cell processing sla in
  let margin := (Profit df / replace_zero_nan (Sales df))%float in
  let om := to_period_M (Order_Date df) in
  mkRow df processing sla late margin om.

Definition preprocess (df : list RawRow) : list Row :=
  map preprocess_row df.

End Preprocess.

(** A parser for the day-first form "DD/MM/YYYY", one of the forms
    [to_datetime] accepts; used to run the pipeline on examples. *)
Definition digit (c : ascii) : option Z :=
  let n := Z.of_nat (nat_of_ascii c) in
  if (48 <=? n) && (n <=? 57) then Some (n - 48) else None.

Fixpoint digits (acc : Z) (l : list ascii) : option Z :=
  match l with
  | [] => Some acc
  | c :: rest =>
      match digit c with
      | Some d => digits (acc * 10 + d) rest
      | None => None
      end
  end.

Definition parse_dayfirst (s : string) : option Timestamp :=
  match list_ascii_of_string s with
  | [d1; d2; s1; m1; m2; s2; y1; y2; y3; y4] =>
      if Ascii.eqb s1 "/"%char && Ascii.eqb s2 "/"%char then
        match digits 0 [d1; d2], digits 0 [m1; m2], digits 0 [y1; y2; y3; y4] with
        | Some d, Some m, Some y =>
            if (1 <=? m) && (m <=? 12) && (1 <=? d) && (d <=? days_in_month y m) && (1 <=? y)
            then Some (midnight y m d) else None
        | _, _, _ => None
        end
      else None
  | _ => None
  end.

(** ** The sidebar filter *)

(** Equality of two string cells as [isin] tests it: a missing value matches
    only a missing value. *)
Definition cell_eqb (a b : option string) : bool :=
  match a, b with
  | Some x, Some y => String.eqb x y
  | None, None => true
  | _, _ => false
  end.

(** [Series.isin(values)] on one cell. *)
Definition isin (c : option string) (values : list (option string)) : bool :=
  existsb (cell_eqb c) values.

(** [cell >= d] and [cell <= d] on a column of dates: False on a missing date. *)
Definition ge_date (c : option date) (d : date) : bool :=
  match c with
  | Some x => date_leb d x
  | None => false
  end.

Definition le_date (c : option date) (d : date) : bool :=
  match c with
  | Some x => date_leb x d
  | None => false
  end.

(** The sidebar's selections: [date_range], [regions], [ship_modes]. *)
Record FilterSpec := mkFilter {
  date_range : date * date;
  regions : list (option string);
  ship_modes : list (option string)
}.

Definition mask_row (f : FilterSpec) (r : Row) : bool :=
  ge_date (dt_date (Order_Date (src r))) (fst (date_range f)) &&
  le_date (dt_date (Order_Date (src r))) (snd (date_range f)) &&
  isin (Region (src r)) (regions f) &&
  isin (Ship_Mode (src r)) (ship_modes f).

Definition mask (f : FilterSpec) (df : list Row) : list bool :=
  map (mask_row f) df.

(** [df[m]]: the rows whose entry in the boolean series is True. *)
Fixpoint boolean_index {A : Type} (df : list A) (m : list bool) : list A :=
  match df, m with
  | r :: df', b :: m' =>
      if b then r :: boolean_index df' m' else boolean_index df' m'
  | _, _ => []
  end.

Definition df_filtered (f : FilterSpec) (df : list Row) : list Row :=
  boolean_index df (mask f df).

(** The filter as the specification words it. *)
Definition row_included (f : FilterSpec) (r : Row) : Prop :=
  exists d, dt_date (Order_Date (src r)) = Some d /\
            date_le (fst (date_range f)) d /\ date_le d (snd (date_range f)) /\
            In (Region (src r)) (regions f) /\
            In (Ship_Mode (src r)) (ship_modes f).

(** [l1] is [l2] with some elements removed, the others in place. *)
Inductive Subseq {A : Type} : list A -> list A -> Prop :=
| Subseq_nil : Subseq [] []
| Subseq_skip x l1 l2 : Subseq l1 l2 -> Subseq l1 (x :: l2)
| Subseq_keep x l1 l2 : Subseq l1 l2 -> Subseq (x :: l1) (x :: l2).

(** ** Reducers *)

Definition dropna {A : Type} (l : list (option A)) : list A :=
  flat_map (fun c => match c with Some x => [x] | None => [] end) l.

(** [Series.sum()] on a float64 column: NaN cells are skipped, the values
    are added in binary64, the empty sum is 0.  The values are added in
    column order; numpy adds long columns in blocks and a group-by sum carries
    a compensation term, which gives the same value on columns of one or two
    values and can differ in the last bit on longer ones. *)
Definition nansum (l : list float) : float :=
  fold_left PrimFloat.add (filter notnan l) 0%float.

(** [Series.mean()] on a float64 column: the sum of the cells that hold a
    value over their number; NaN when there is none. *)
Definition nanmean (l : list float) : float :=
  match filter notnan l with
  | [] => nan
  | xs => (fold_left PrimFloat.add xs 0 / Z2float (Z.of_nat (List.length xs)))%float
  end.

(** [Series.mean()] on a column of whole day counts, by its exact value:
    missing values are skipped; NaN when nothing is left. *)
Definition mean_days (l : list (option Z)) : exact64 :=
  match dropna l with
  | [] => NaN
  | xs => Fin (inject_Z (fold_left Z.add xs 0) / inject_Z (Z.of_nat (List.length xs)))
  end.

(** [Series.nunique()]: the number of distinct values, missing ones left out. *)
Definition nunique (l : list (option string)) : Z :=
  Z.of_nat (List.length (nodup string_dec (dropna l))).

(** Python's [max(a, b)]: [a] unless [b > a]. *)
Definition pymax (a b : float) : float :=
  if (a <? b)%float then b else a.

(** Python's [/] on two ints: ZeroDivisionError, here [None], on a zero divisor. *)
Definition int_truediv (a b : Z) : option Q :=
  if b =? 0 then None else Some (inject_Z a / inject_Z b)%Q.

(** numpy's [rint]: the nearest whole number, halves to even.  Below 2^52 in
    magnitude, adding and subtracting 2^52 rounds to a whole number; from 2^52
    on every binary64 is one. *)
Definition rint (x : float) : float :=
  if (x =? 0)%float then x
  else if (abs x <? 0x1p+52)%float then
    if (x <? 0)%float then (- ((- x + 0x1p+52) - 0x1p+52))%float
    else ((x + 0x1p+52) - 0x1p+52)%float
  else x.

(** [round(x, 2)] on a numpy float64: scale by 100, [rint], scale back, each
    step in binary64. *)
Definition round2 (x : float) : float :=
  (rint (x * 100) / 100)%float.

(** Python's [int(x)] on a float: the whole part, towards zero; ValueError on
    NaN and OverflowError on an infinity, here [None]. *)
Definition py_int (x : float) : option Z :=
  match Prim2SF x with
  | S754_zero _ => Some 0
  | S754_finite s m e =>
      let v := Z.shiftl (Zpos m) e in Some (if s then - v else v)
  | S754_infinity _ | S754_nan => None
  end.

(** ** Scalar metrics *)

Definition processing_times (g : list Row) : list (option Z) :=
  map Order_Processing_Time g.

Definition avg_processing (df : list Row) : float :=
  round2 (to_binary64 (mean_days (processing_times df))).

Definition total_orders (df : list Row) : Z :=
  nunique (map (fun r => Order_ID (src r)) df).

Definition late_orders (df : list Row) : Z :=
  Z.of_nat (List.length (filter Is_Late df)).

Definition late_pct (df : list Row) : option Q :=
  int_truediv (100 * late_orders df) (Z.max 1 (Z.of_nat (List.length df))).

Definition total_sales (df : list Row) : float :=
  nansum (map (fun r => Sales (src r)) df).

Definition total_profit (df : list Row) : float :=
  nansum (map (fun r => Profit (src r)) df).

(** The "Profit Margin" metric of the financial tab. *)
Definition overall_margin (df : list Row) : float :=
  (total_profit df / pymax 1 (total_sales df))%float.

Definition avg_discount (df : list Row) : float :=
  nanmean (map (fun r => Discount (src r)) df).

Definition total_customers (df : list Row) : Z :=
  nunique (map (fun r => Customer_ID (src r)) df).

(** ** groupby *)

Section GroupBy.

Context {K : Type}.
(** The order in which the keys are sorted. *)
Variable cmp : K -> K -> comparison.

Fixpoint insert_key (k : K) (l : list K) : list K :=
  match l with
  | [] => [k]
  | x :: t =>
      match cmp k x with
      | Lt => k :: l
      | Eq => l
      | Gt => x :: insert_key k t
      end
  end.

(** The group keys: the distinct non-missing key values, ascending
    ([groupby]'s defaults are [sort=True] and [dropna=True]). *)
Definition group_keys (key : Row -> option K) (df : list Row) : list K :=
  fold_right insert_key [] (dropna (map key df)).

Definition has_key (key : Row -> option K) (k : K) (r : Row) : bool :=
  match key r with
  | Some x => match cmp x k with Eq => true | _ => false end
  | None => false
  end.

(** The rows of the group of [k], in frame order. *)
Definition group_rows (key : Row -> option K) (df : list Row) (k : K) : list Row :=
  filter (has_key key k) df.

(** [df.groupby(key).agg(...).reset_index()]: one output row per group key. *)
Definition groupby {A : Type} (key : Row -> option K)
    (agg : K -> list Row -> A) (df : list Row) : list A :=
  map (fun k => agg k (group_rows key df k)) (group_keys key df).

End GroupBy.

(** Python's order on [str]. *)
Definition str_cmp : string -> string -> comparison := String.compare.

Record PriRow := mkPri {
  pri_Order_Priority : string;
  Order_Count : Z;
  Avg_Time : exact64
}.

Definition pri (df : list Row) : list PriRow :=
  groupby str_cmp (fun r => Order_Priority (src r))
    (fun k g => mkPri k (nunique (map (fun r => Order_ID (src r)) g))
                  (mean_days (processing_times g)))
    df.

Record ProdRow := mkProd {
  prod_Product_Name : string;
  prod_Sales : float;
  prod_Profit : float;
  prod_Quantity : float
}.

Definition prod_agg (df : list Row) : list ProdRow :=
  groupby str_cmp (fun r => Product_Name (src r))
    (fun k g => mkProd k (nansum (map (fun r => Sales (src r)) g))
                  (nansum (map (fun r => Profit (src r)) g))
                  (nansum (map (fun r => Quantity (src r)) g)))
    df.

Record CustRow := mkCust {
  cust_Customer_Name : string;
  cust_Profit : float
}.

Definition cust_profit (df : list Row) : list CustRow :=
  groupby str_cmp (fun r => Customer_Name (src r))
    (fun k g => mkCust k (nansum (map (fun r => Profit (src r)) g)))
    df.

(** [int(prod_agg['Quantity'].sum())]: [None] when [int] raises.  The sum
    is the float64 sum; the sum of an int64 column is the same number as long
    as it stays below 2^53. *)
Definition total_quantity (df : list Row) : option Z :=
  py_int (nansum (map prod_Quantity (prod_agg df))).

(** ** sort_values and the ranked selections *)

(** [tbl.take(ix)]: the rows at the positions [ix], in that order.  numpy's
    argsort yields positions below the length only; a position outside the
    table (an IndexError in pandas) selects no row here. *)
Definition take {A : Type} (tbl : list A) (ix : list nat) : list A :=
  flat_map (fun i => match nth_error tbl i with Some r => [r] | None => [] end) ix.

Definition head {A : Type} (n : nat) (l : list A) : list A := firstn n l.

Definition tail {A : Type} (n : nat) (l : list A) : list A :=
  skipn (List.length l - n) l.

(** What numpy documents of [argsort]: the positions of [l], each once, in an
    order that makes the values ascend.  The default [kind='quicksort'] is not
    stable, so nothing is said about the order of equal values.  The values
    are compared by [<=], so this speaks of columns without NaN, which are
    the ones [nargsort] hands to [argsort]. *)
Definition is_argsort (l : list float) (ix : list nat) : Prop :=
  Permutation ix (seq 0 (List.length l)) /\
  StronglySorted fle (map (fun i => nth i l 0%float) ix).

Section SortValues.

(** [ndarray.argsort(kind='quicksort')], the sort [sort_values] calls when
    no [kind] is given. *)
Variable argsort : list float -> list nat.

(** pandas' [nargsort] with [na_position='last']: the positions of the NaN
    values are set aside and appended at the end; the others are sorted, and
    a descending sort reverses them, sorts ascending and reverses the
    result. *)
Definition nargsort (items : list float) (ascending : bool) : list nat :=
  let idx := seq 0 (List.length items) in
  let keep := fun i => notnan (nth i items nan) in
  let non_nans := filter notnan items in
  let non_nan_idx := filter keep idx in
  let nan_idx := filter (fun i => negb (keep i)) idx in
  let non_nans := if ascending then non_nans else rev non_nans in
  let non_nan_idx := if ascending then non_nan_idx else rev non_nan_idx in
  let indexer := take non_nan_idx (argsort non_nans) in
  let indexer := if ascending then indexer else rev indexer in
  indexer ++ nan_idx.

Definition sort_values {A : Type} (col : A -> float) (ascending : bool)
    (tbl : list A) : list A :=
  take tbl (nargsort (map col tbl) ascending).

Definition best_selling (df : list Row) : list ProdRow :=
  head 1 (sort_values prod_Sales false (prod_agg df)).

Definition most_profitable (df : list Row) : list ProdRow :=
  head 1 (sort_values prod_Profit false (prod_agg df)).

(** The text of the two product metrics. *)
Definition product_metric (sel : list ProdRow) : string :=
  match sel with
  | g :: _ => prod_Product_Name g
  | [] => "N/A"
  end.

Definition top10_sales (df : list Row) : list ProdRow :=
  tail 10 (sort_values prod_Sales true (prod_agg df)).

Definition bottom10_profit (df : list Row) : list ProdRow :=
  head 10 (sort_values prod_Profit true (prod_agg df)).

Definition top_cust_profit (df : list Row) : list CustRow :=
  head 10 (sort_values cust_Profit false (cust_profit df)).

End SortValues.

(** Two sorts for the examples: insertion of the positions from the right,
    which keeps equal values in position order, and the same with equal
    values in the opposite order. *)
Fixpoint insert_ix (strict : bool) (l : list float) (i : nat) (ix : list nat) : list nat :=
  match ix with
  | [] => [i]
  | j :: t =>
      if (if strict then (nth i l 0 <? nth j l 0)%float
          else (nth i l 0 <=? nth j l 0)%float)
      then i :: ix else j :: insert_ix strict l i t
  end.

Definition stable_argsort (l : list float) : list nat :=
  fold_right (insert_ix false l) [] (seq 0 (List.length l)).

Definition antistable_argsort (l : list float) : list nat :=
  fold_right (insert_ix true l) [] (seq 0 (List.length l)).

(** ** The tie-break rule of the specification *)

Fixpoint index_where {A : Type} (p : A -> bool) (l : list A) : option nat :=
  match l with
  | [] => None
  | x :: t => if p x then Some O else option_map S (index_where p t)
  end.

Definition before (i j : option nat) : bool :=
  match i, j with
  | Some a, Some b => (a <? b)%nat
  | _, _ => false
  end.

(** The position in [df] of the first row whose key is [k]. *)
Definition first_row (key : Row -> option string) (k : string) (df : list Row) : option nat :=
  index_where (fun r => cell_eqb (key r) (Some k)) df.

Definition position {A : Type} (name : A -> string) (k : string) (l : list A) : option nat :=
  index_where (fun g => String.eqb (name g) k) l.

(** "Ties are broken by input order": of two groups with equal measure the
    one whose rows come first in [df] is the one selected, and is listed first
    when both are selected. *)
Definition ties_by_input_order {A : Type} (key : Row -> option string)
    (name : A -> string) (col : A -> float) (df : list Row) (agg selected : list A) : Prop :=
  forall g1 g2, In g1 agg -> In g2 selected -> (col g1 =? col g2)%float = true ->
    before (first_row key (name g1) df) (first_row key (name g2) df) = true ->
    before (position name (name g1) selected) (position name (name g2) selected) = true.

(** ** Example rows *)

Definition order (id odate sdate mode region prio product cust : option string)
    (sales profit : float) : RawRow :=
  mkSource id odate sdate mode region prio sales profit nan nan nan
    None None product None cust None.

Definition enrich : list RawRow -> list Row := preprocess parse_dayfirst.

Definition row_A : RawRow :=
  order (Some "O-1") (Some "01/03/2024") (Some "06/03/2024") (Some "Standard Class")
    (Some "East") (Some "High") (Some "A") (Some "Ann") 10%float 3%float.

Definition row_B : RawRow :=
  order (Some "O-2") (Some "01/03/2024") (Some "07/03/2024") (Some "Standard Class")
    (Some "West") (Some "Low") (Some "B") (Some "Bob") 10%float 3%float.

(** No order priority, no product name. *)
Definition row_unkeyed : RawRow :=
  order (Some "O-3") (Some "02/03/2024") (Some "03/03/2024") (Some "Same Day")
    (Some "East") None None (Some "Cy") 5%float 1%float.

(** Zero sales, profit 100. *)
Definition row_zero_sales : RawRow :=
  order (Some "O-4") (Some "02/03/2024") (Some "03/03/2024") (Some "First Class")
    (Some "East") (Some "High") (Some "C") (Some "Dee") 0%float 100%float.

(** No region. *)
Definition row_no_region : RawRow :=
  order (Some "O-5") (Some "02/03/2024") (Some "03/03/2024") (Some "First Class")
    None (Some "High") (Some "C") (Some "Dee") 7%float 2%float.

(** Sales 1/2, profit 1/4. *)
Definition row_half_sale : RawRow :=
  order (Some "O-6") (Some "04/03/2024") (Some "05/03/2024") (Some "Second Class")
    (Some "West") (Some "Low") (Some "D") (Some "Eve") 0.5%float 0.25%float.


(** An order with every measure: discount 1/4, shipping cost 2, quantity 3. *)
Definition row_full : RawRow :=
  mkSource (Some "O-8") (Some "05/03/2024") (Some "09/03/2024") (Some "First Class")
    (Some "West") (Some "Low") 60%float (-4)%float 0.25%float 2%float 3%float
    (Some "Office") (Some "Binders") (Some "F") (Some "C-8") (Some "Gus")
    (Some "Consumer").

Definition march_2024 : date * date := (mkdate 2024 3 1, mkdate 2024 3 31).

(** ** The specification's wording of the derived columns *)

(** The column-by-column content of "left unchanged": every source column
    of the enriched row other than the two dates is the raw row's. *)
Definition same_source_columns (r : RawRow) (e : Row) : Prop :=
  Order_ID (src e) = Order_ID r /\ Ship_Mode (src e) = Ship_Mode r /\
  Region (src e) = Region r /\ Order_Priority (src e) = Order_Priority r /\
  Sales (src e) = Sales r /\ Profit (src e) = Profit r /\
  Discount (src e) = Discount r /\ Shipping_Cost (src e) = Shipping_Cost r /\
  Quantity (src e) = Quantity r /\ Category (src e) = Category r /\
  Sub_Category (src e) = Sub_Category r /\ Product_Name (src e) = Product_Name r /\
  Customer_ID (src e) = Customer_ID r /\ Customer_Name (src e) = Customer_Name r /\
  Segment (src e) = Segment r.

(** The SLA table as the specification lists it. *)
Definition sla_days_spec (c : option string) : Z :=
  match c with
  | Some m =>
      if String.eqb m "Same Day" then 1
      else if String.eqb m "First Class" then 2
      else if String.eqb m "Second Class" then 4
      else if String.eqb m "Standard Class" then 5
      else 999
  | None => 999
  end.

(** "is_late equals the strict comparison, and is false on a null
    processing time", on one enriched row. *)
Definition is_late_spec (e : Row) : Prop :=
  Is_Late e = gt_cell (Order_Processing_Time e) (Standard_SLA_Days e) /\
  (forall p s, Order_Processing_Time e = Some p -> Standard_SLA_Days e = Some s ->
               (Is_Late e = true <-> s < p)) /\
  (Order_Processing_Time e = None -> Is_Late e = false).

(** "Reported as 0 or undefined". *)
Definition zero_or_undefined (x : float) : Prop :=
  PrimFloat.is_nan x = true \/ (x =? 0)%float = true.

(** What [groupby] needs of the order on its keys. *)
Record KeyOrder {K : Type} (cmp : K -> K -> comparison) : Prop := {
  cmp_eq : forall a b, cmp a b = Eq <-> a = b;
  cmp_swap : forall a b, cmp a b = CompOpp (cmp b a);
  cmp_trans : forall a b c, cmp a b = Lt -> cmp b c = Lt -> cmp a c = Lt
}.

(** "No row is silently dropped": every row of the table is in the bucket of
    some group of the aggregated result. *)
Definition no_row_dropped {K : Type} (cmp : K -> K -> comparison)
    (key : Row -> option K) (df : list Row) : Prop :=
  forall r, In r df ->
    exists k, In k (group_keys cmp key df) /\ In r (group_rows cmp key df k).

(** The tie-break rule on the two ranked selections of the claim. *)
Definition sales_ties_rule (argsort : list float -> list nat) (df : list Row) : Prop :=
  ties_by_input_order (fun r => Product_Name (src r)) prod_Product_Name prod_Sales
    df (prod_agg df) (best_selling argsort df).

Definition profit_ties_rule (argsort : list float -> list nat) (df : list Row) : Prop :=
  ties_by_input_order (fun r => Customer_Name (src r)) cust_Customer_Name cust_Profit
    df (cust_profit df) (top_cust_profit argsort df).

(** ** The sidebar's offers *)

(** The order of two timestamps. *)
Definition ts_cmp (a b : Timestamp) : comparison :=
  match year (ts_date a) ?= year (ts_date b) with
  | Eq =>
      match month (ts_date a) ?= month (ts_date b) with
      | Eq =>
          match day (ts_date a) ?= day (ts_date b) with
          | Eq => ts_nanos a ?= ts_nanos b
          | c => c
          end
      | c => c
      end
  | c => c
  end.






(** Python's [sorted] on strings. *)
Fixpoint insert_sorted (x : string) (l : list string) : list string :=
  match l with
  | [] => [x]
  | y :: t =>
      match str_cmp x y with
      | Gt => y :: insert_sorted x t
      | _ => x :: l
      end
  end.

Definition py_sorted (l : list string) : list string :=
  fold_right insert_sorted [] l.

Definition notna {A : Type} (c : option A) : bool :=
  match c with
  | Some _ => true
  | None => false
  end.


(** Python's [sorted] on the values of a column.  Ordering a [str] against
    the float NaN raises TypeError, here [None]; a sort of values of both
    kinds must compare two of different kinds. *)
Definition py_sorted_cells (l : list (option string)) : option (list (option string)) :=
  if forallb notna l then Some (map Some (py_sorted (dropna l)))
  else if existsb notna l then None
  else Some l.





(** ** The other group tables *)

(** [groupby('order_month')['Order Processing Time'].mean()] *)
Definition monthly (df : list Row) : list (Timestamp * exact64) :=
  groupby ts_cmp order_month (fun k g => (k, mean_days (processing_times g))) df.

(** [groupby('Ship Mode')['Order Processing Time'].mean()] *)
Definition mode_avg (df : list Row) : list (string * exact64) :=
  groupby str_cmp (fun r => Ship_Mode (src r))
    (fun k g => (k, mean_days (processing_times g))) df.

Record TimeAggRow := mkTimeAgg {
  ta_order_month : Timestamp;
  ta_Sales : float;
  ta_Profit : float
}.

Definition time_agg (df : list Row) : list TimeAggRow :=
  groupby ts_cmp order_month
    (fun k g => mkTimeAgg k (nansum (map (fun r => Sales (src r)) g))
                  (nansum (map (fun r => Profit (src r)) g)))
    df.

(** [groupby(key)[col].sum().reset_index()] *)
Record SumRow := mkSum {
  sum_key : string;
  sum_value : float
}.

Definition sum_by (key : Row -> option string) (col : Row -> float)
    (df : list Row) : list SumRow :=
  groupby str_cmp key (fun k g => mkSum k (nansum (map col g))) df.


Definition seg (df : list Row) : list SumRow :=
  sum_by (fun r => Segment (src r)) (fun r => Sales (src r)) df.





(** Two grouping columns: the key of a row is the pair of its two cells, and
    is missing when either cell is; pairs are ordered by the first component,
    then by the second. *)
Definition pair_key (k1 k2 : Row -> option string) (r : Row) : option (string * string) :=
  match k1 r, k2 r with
  | Some a, Some b => Some (a, b)
  | _, _ => None
  end.

Definition pair_cmp (a b : string * string) : comparison :=
  match str_cmp (fst a) (fst b) with
  | Eq => str_cmp (snd a) (snd b)
  | c => c
  end.

Record CatRow := mkCat {
  cat_Category : string;
  cat_Sub_Category : string;
  cat_Sales : float;
  cat_Profit : float
}.

Definition cat_tree (df : list Row) : list CatRow :=
  groupby pair_cmp
    (pair_key (fun r => Category (src r)) (fun r => Sub_Category (src r)))
    (fun k g => mkCat (fst k) (snd k) (nansum (map (fun r => Sales (src r)) g))
                  (nansum (map (fun r => Profit (src r)) g)))
    df.

Record RegSegRow := mkRegSeg {
  rs_Region : string;
  rs_Segment : string;
  rs_Sales : float
}.

Definition reg_seg (df : list Row) : list RegSegRow :=
  groupby pair_cmp
    (pair_key (fun r => Region (src r)) (fun r => Segment (src r)))
    (fun k g => mkRegSeg (fst k) (snd k) (nansum (map (fun r => Sales (src r)) g)))
    df.

(** The table every tab reads: the enriched frame, filtered. *)
Definition pipeline (to_datetime : string -> option Timestamp) (f : FilterSpec)
    (raw : list RawRow) : list Row :=
  df_filtered f (preprocess to_datetime raw).

(** ** load_data *)

(** The cache [st.cache_data] keeps for [load_data]: the value returned for
    each path loaded so far.  The decorator is used without [ttl] or
    [max_entries], so an entry stays until the cache is cleared. *)
Definition Cache : Type := list (string * list Row).

(** [load_data(path)] under [st.cache_data].  [read_csv] is the state of the
    file system at the time of the call: [None] when the path names no file
    (FileNotFoundError).  A cached path is answered from the cache; an
    exception stores nothing. *)
Definition load_data (read_csv : string -> option (list RawRow))
    (to_datetime : string -> option Timestamp) (path : string) (cache : Cache)
    : option (list Row) * Cache :=
  match dict_get cache path with
  | Some df => (Some df, cache)
  | None =>
      match read_csv path with
      | Some raw =>
          let df := preprocess to_datetime raw in
          (Some df, (path, df) :: cache)
      | None => (None, cache)
      end
  end.

(** * Properties *)

(** ** The definitions on small inputs *)

Example toordinal_epoch : toordinal (mkdate 1970 1 1) = 719163.
Proof. reflexivity. Qed.

Example toordinal_leap_day :
  toordinal (mkdate 2024 3 1) - toordinal (mkdate 2024 2 28) = 2.
Proof. reflexivity. Qed.

Example parse_day_first :
  parse_dayfirst "05/03/2024" = Some (midnight 2024 3 5) /\
  parse_dayfirst "31/02/2024" = None /\
  parse_dayfirst "2024-03-05" = None.
Proof. repeat split; reflexivity. Qed.

Example dt_days_floor :
  dt_days (sub_timestamp (Some (mkTimestamp (mkdate 2024 3 1) 0))
                         (Some (mkTimestamp (mkdate 2024 3 1) 1))) = Some (-1).
Proof. reflexivity. Qed.

Example divide_zero_divisor :
  (100 / 0)%float = infinity /\
  (-100 / 0)%float = neg_infinity /\
  (0 / 0)%float = nan /\
  (100 / replace_zero_nan 0)%float = nan /\
  (100 / replace_zero_nan (-0))%float = nan.
Proof. repeat split; reflexivity. Qed.

Example sum_in_column_order :
  nansum [0x1p+53; 1; 1]%float = 0x1p+53%float /\
  nansum [1; 1; 0x1p+53]%float = (0x1p+53 + 2)%float /\
  nansum [1; nan; 2]%float = 3%float /\
  nansum [infinity; neg_infinity]%float = nan.
Proof. repeat split; reflexivity. Qed.

Example round2_binary64 :
  to_binary64 (Fin (23 # 40)) = (23 / 40)%float /\
  (23 / 40 * 100 <? 57.5)%float = true /\
  round2 (to_binary64 (Fin (23 # 40))) = (57 / 100)%float /\
  round2 (to_binary64 (Fin (11 # 2))) = 5.5%float.
Proof. repeat split; reflexivity. Qed.

Example py_int_truncates :
  py_int (3 + 2.5)%float = Some 5 /\ py_int (-2.5)%float = Some (-2) /\
  py_int nan = None /\ py_int infinity = None.
Proof. repeat split; reflexivity. Qed.

Example enrich_row_B :
  map (fun e => (Order_Processing_Time e, Standard_SLA_Days e, Is_Late e,
                 order_month e))
      (enrich [row_B])
  = [(Some 6, Some 5, true, Some (midnight 2024 3 1))].
Proof. reflexivity. Qed.

Example filter_east_first_class :
  map (fun e => Order_ID (src e))
      (df_filtered (mkFilter march_2024 [Some "East"] [Some "First Class"])
         (enrich [row_A; row_no_region; row_zero_sales]))
  = [Some "O-4"].
Proof. reflexivity. Qed.

Example metrics_two_orders :
  avg_processing (enrich [row_A; row_B]) = 5.5%float /\
  late_pct (enrich [row_A; row_B]) = Some (100 # 2) /\
  total_orders (enrich [row_A; row_B]) = 2 /\
  total_quantity (enrich [row_A; row_full]) = Some 3.
Proof. repeat split; reflexivity. Qed.

Example argsort_ties :
  stable_argsort [3; 1; 2; 1]%float = [1; 3; 2; 0]%nat /\
  antistable_argsort [3; 1; 2; 1]%float = [3; 1; 2; 0]%nat.
Proof. split; reflexivity. Qed.

Example best_selling_depends_on_sort :
  product_metric (best_selling stable_argsort (enrich [row_B; row_A])) = "A" /\
  product_metric (best_selling antistable_argsort (enrich [row_B; row_A])) = "B".
Proof. split; reflexivity. Qed.

Example sorted_of_mixed_values :
  py_sorted_cells [Some "West"; Some "East"] = Some [Some "East"; Some "West"] /\
  py_sorted_cells [Some "West"; None] = None /\
  py_sorted_cells [None] = Some [None].
Proof. repeat split; reflexivity. Qed.

(** ** The order of binary64 *)

Lemma SFcompare_refl (s : spec_float) : s <> S754_nan -> SFcompare s s = Some Eq.
Proof.
  destruct s as [b|b| |b m e]; intro H; simpl; try congruence.
  - destruct b; reflexivity.
  - rewrite Z.compare_refl.
    change (Pos.compare_cont Eq m m) with (Pos.compare m m).
    rewrite Pos.compare_refl. destruct b; reflexivity.
Qed.

Lemma is_nan_Prim2SF (x : float) :
  PrimFloat.is_nan x = true <-> Prim2SF x = S754_nan.
Proof.
  unfold PrimFloat.is_nan. rewrite eqb_spec. unfold SFeqb. split.
  - intro H. destruct (Prim2SF x) eqn:E; try reflexivity;
      rewrite SFcompare_refl in H by discriminate; discriminate.
  - intros ->. reflexivity.
Qed.

Lemma not_nan_Prim2SF (x : float) :
  PrimFloat.is_nan x = false <-> Prim2SF x <> S754_nan.
Proof.
  rewrite <- is_nan_Prim2SF. destruct (PrimFloat.is_nan x); split; congruence.
Qed.




Lemma leb_not_nan (x y : float) :
  fle x y -> PrimFloat.is_nan x = false /\ PrimFloat.is_nan y = false.
Proof.
  unfold fle. rewrite leb_spec. unfold SFleb. intro H.
  split; apply not_true_is_false; rewrite is_nan_Prim2SF; intro E; rewrite E in H;
    destruct (Prim2SF x); simpl in H; discriminate.
Qed.

Lemma SFleb_key (a b : spec_float) : a <> S754_nan -> b <> S754_nan ->
  (SFleb a b = true <-> key_le (sf_key a) (sf_key b)).
Proof.
  intros Ha Hb. unfold SFleb.
  destruct a as [sa|sa| |sa ma ea], b as [sb|sb| |sb mb eb]; try congruence;
    simpl; try (destruct sa); try (destruct sb); simpl;
    try (split; [intros _; lia | reflexivity]);
    try (split; [discriminate | lia]).
  - change (Pos.compare_cont Eq ma mb) with (Pos.compare ma mb).
    destruct (Z.compare_spec ea eb); [destruct (Pos.compare_spec ma mb)| |]; simpl;
      split; try discriminate; try reflexivity; try lia.
  - change (Pos.compare_cont Eq ma mb) with (Pos.compare ma mb).
    destruct (Z.compare_spec ea eb); [destruct (Pos.compare_spec ma mb)| |]; simpl;
      split; try discriminate; try reflexivity; try lia.
Qed.

Lemma leb_key (x y : float) :
  PrimFloat.is_nan x = false -> PrimFloat.is_nan y = false ->
  (fle x y <-> key_le (sf_key (Prim2SF x)) (sf_key (Prim2SF y))).
Proof.
  intros Hx Hy. unfold fle. rewrite leb_spec.
  apply SFleb_key; apply not_nan_Prim2SF; assumption.
Qed.

Lemma leb_total (x y : float) :
  PrimFloat.is_nan x = false -> PrimFloat.is_nan y = false -> fle x y \/ fle y x.
Proof.
  intros Hx Hy. rewrite !leb_key by assumption.
  destruct (sf_key (Prim2SF x)) as [[c1 e1] m1], (sf_key (Prim2SF y)) as [[c2 e2] m2].
  simpl. lia.
Qed.

Lemma leb_trans (x y z : float) : fle x y -> fle y z -> fle x z.
Proof.
  intros H1 H2.
  destruct (leb_not_nan _ _ H1) as [Hx Hy]. destruct (leb_not_nan _ _ H2) as [_ Hz].
  rewrite leb_key in * by assumption.
  destruct (sf_key (Prim2SF x)) as [[c1 e1] m1], (sf_key (Prim2SF y)) as [[c2 e2] m2],
           (sf_key (Prim2SF z)) as [[c3 e3] m3].
  simpl in *. lia.
Qed.

Lemma leb_refl (x : float) : PrimFloat.is_nan x = false -> fle x x.
Proof.
  intro Hx. rewrite leb_key by assumption.
  destruct (sf_key (Prim2SF x)) as [[c1 e1] m1]. simpl. lia.
Qed.

Lemma SFcompare_antisym (a b : spec_float) :
  SFcompare b a = option_map CompOpp (SFcompare a b).
Proof.
  destruct a as [sa|sa| |sa ma ea], b as [sb|sb| |sb mb eb]; simpl;
    try reflexivity; try (destruct sa; reflexivity); try (destruct sb; reflexivity);
    try (destruct sa, sb; reflexivity).
  f_equal. rewrite (Z.compare_antisym ea eb).
  change (Pos.compare_cont Eq mb ma) with (Pos.compare mb ma).
  change (Pos.compare_cont Eq ma mb) with (Pos.compare ma mb).
  rewrite (Pos.compare_antisym ma mb).
  destruct sa, sb, (ea ?= eb); simpl; try reflexivity;
  destruct (ma ?= mb)%positive; reflexivity.
Qed.

Lemma SFcompare_some (a b : spec_float) : a <> S754_nan -> b <> S754_nan ->
  exists c, SFcompare a b = Some c.
Proof.
  intros Ha Hb. destruct a, b; try congruence; simpl; eexists; reflexivity.
Qed.

Lemma ltb_leb (x y : float) : (x <? y)%float = true -> fle x y.
Proof.
  unfold fle. rewrite ltb_spec, leb_spec. unfold SFltb, SFleb.
  destruct (SFcompare (Prim2SF x) (Prim2SF y)) as [[]|]; congruence.
Qed.

Lemma ltb_false_leb (x y : float) :
  PrimFloat.is_nan x = false -> PrimFloat.is_nan y = false ->
  (x <? y)%float = false -> fle y x.
Proof.
  intros Hx Hy. unfold fle. rewrite ltb_spec, leb_spec. unfold SFltb, SFleb.
  rewrite (SFcompare_antisym (Prim2SF x) (Prim2SF y)).
  apply not_nan_Prim2SF in Hx, Hy.
  destruct (SFcompare_some _ _ Hx Hy) as [c ->]. destruct c; simpl; congruence.
Qed.

Lemma leb_false_leb (x y : float) :
  PrimFloat.is_nan x = false -> PrimFloat.is_nan y = false ->
  (x <=? y)%float = false -> fle y x.
Proof.
  intros Hx Hy H. destruct (leb_total x y Hx Hy) as [D | D]; [|exact D].
  unfold fle in D. congruence.
Qed.

Lemma leb_antisym_eqb (x y : float) : fle x y -> fle y x -> (x =? y)%float = true.
Proof.
  unfold fle. rewrite !leb_spec, eqb_spec. unfold SFleb, SFeqb.
  rewrite (SFcompare_antisym (Prim2SF x) (Prim2SF y)).
  destruct (SFcompare (Prim2SF x) (Prim2SF y)) as [[]|]; simpl; congruence.
Qed.

(** A sum that equals 0 does not exceed 1. *)
Lemma eqb_zero_not_gt_one (s : float) :
  (s =? 0)%float = true -> (1 <? s)%float = false.
Proof.
  rewrite eqb_spec, ltb_spec. unfold SFeqb, SFltb.
  change (Prim2SF 0%float) with (S754_zero false).
  change (Prim2SF 1%float) with (S754_finite false 4503599627370496 (-52)).
  destruct (Prim2SF s) as [b|b| |b m e]; simpl; try discriminate; try reflexivity;
    destruct b; discriminate.
Qed.

(** ** Enrichment *)

Section PreprocessFacts.

Variable to_datetime : string -> option Timestamp.

Lemma in_preprocess (df : list RawRow) (e : Row) :
  In e (preprocess to_datetime df) ->
  exists r, In r df /\ e = preprocess_row to_datetime r.
Proof.
  unfold preprocess. rewrite in_map_iff.
  intros [r [E H]]. exists r. split; [exact H | symmetry; exact E].
Qed.

(** What holds of [preprocess_row] on every raw row holds position by
    position of the enriched frame. *)
Lemma preprocess_Forall2 (P : RawRow -> Row -> Prop) (df : list RawRow) :
  (forall r, P r (preprocess_row to_datetime r)) ->
  Forall2 P df (preprocess to_datetime df).
Proof.
  intros H. induction df as [|r df IH]; simpl; constructor; [apply H | exact IH].
Qed.

End PreprocessFacts.




Lemma Forall2_cons_inv {A B : Type} (P : A -> B -> Prop) (a : A) (b : B)
    (l : list A) (l' : list B) :
  Forall2 P (a :: l) (b :: l') -> P a b /\ Forall2 P l l'.
Proof. intros H. inversion H; subst. split; assumption. Qed.

(** C9: enrichment drops and reorders no row, and leaves every source column
    other than the two dates as it was.  The raw frame and the enriched frame
    are related row by row, position by position: they have the same length,
    the row at each position keeps its fifteen non-date columns, and its two
    date cells are the parsed raw date cells. *)
Theorem preprocess_keeps_rows (to_datetime : string -> option Timestamp)
    (df : list RawRow) :
  List.length (preprocess to_datetime df) = List.length df /\
  Forall2 (fun r e =>
             same_source_columns r e /\
             Order_Date (src e) = to_datetime_cell to_datetime (Order_Date r) /\
             Ship_Date (src e) = to_datetime_cell to_datetime (Ship_Date r))
          df (preprocess to_datetime df).
Proof.
  split.
  - unfold preprocess. apply length_map.
  - induction df as [|r df IH]; simpl.
    + constructor.
    + constructor; [|exact IH].
      unfold same_source_columns. simpl. repeat split; reflexivity.
Qed.

(** C5: every enriched row has a non-null Standard SLA Days: 1, 2, 4 or 5 for
    the four ship modes of the table, and 999 for any other ship mode and for a
    missing one. *)
Theorem standard_sla_days_total (to_datetime : string -> option Timestamp)
    (df : list RawRow) (e : Row) :
  In e (preprocess to_datetime df) ->
  Standard_SLA_Days e = Some (sla_days_spec (Ship_Mode (src e))) /\
  Standard_SLA_Days e <> None /\
  (Ship_Mode (src e) = Some "Same Day" -> Standard_SLA_Days e = Some 1) /\
  (Ship_Mode (src e) = Some "First Class" -> Standard_SLA_Days e = Some 2) /\
  (Ship_Mode (src e) = Some "Second Class" -> Standard_SLA_Days e = Some 4) /\
  (Ship_Mode (src e) = Some "Standard Class" -> Standard_SLA_Days e = Some 5) /\
  (map_dict sla_map (Ship_Mode (src e)) = None -> Standard_SLA_Days e = Some 999).
Proof.
  intros H. apply in_preprocess in H. destruct H as [r [_ ->]].
  simpl.
  assert (E : fillna 999 (map_dict sla_map (Ship_Mode r))
              = Some (sla_days_spec (Ship_Mode r))).
  { destruct (Ship_Mode r) as [m|]; [|reflexivity].
    simpl.
    destruct (String.eqb m "Same Day"); [reflexivity|].
    destruct (String.eqb m "First Class"); [reflexivity|].
    destruct (String.eqb m "Second Class"); [reflexivity|].
    destruct (String.eqb m "Standard Class"); reflexivity. }
  split; [exact E|].
  split; [rewrite E; discriminate|].
  repeat split; intros ->; reflexivity.
Qed.

Lemma standard_sla_days_total_witness :
  In (preprocess_row parse_dayfirst row_A) (enrich [row_A; row_unkeyed]) /\
  Standard_SLA_Days (preprocess_row parse_dayfirst row_A) = Some 5.
Proof.
  split.
  - simpl. left. reflexivity.
  - apply (standard_sla_days_total parse_dayfirst [row_A; row_unkeyed]
             (preprocess_row parse_dayfirst row_A)).
    + simpl. left. reflexivity.
    + reflexivity.
Defined.

(** C2: Is Late is the strict comparison Order Processing Time > Standard SLA
    Days on every enriched row, and False (not null, no exception) when the
    processing time is null; the enriched frame has one such row for each raw
    row.  A table of one order of 2024-03-01 shipped 2024-03-06 by Standard
    Class enriches to processing time 5, SLA 5, not late; shipped 2024-03-07,
    to processing time 6, late. *)
Theorem is_late_strict (to_datetime : string -> option Timestamp) :
  (forall df : list RawRow,
     Forall2 (fun _ e => is_late_spec e) df (preprocess to_datetime df)) /\
  (forall r : RawRow,
     to_datetime_cell to_datetime (Order_Date r) = Some (midnight 2024 3 1) ->
     Ship_Mode r = Some "Standard Class" ->
     (to_datetime_cell to_datetime (Ship_Date r) = Some (midnight 2024 3 6) ->
      map (fun e => (Order_Processing_Time e, Standard_SLA_Days e, Is_Late e))
          (preprocess to_datetime [r]) = [(Some 5, Some 5, false)]) /\
     (to_datetime_cell to_datetime (Ship_Date r) = Some (midnight 2024 3 7) ->
      map (fun e => (Order_Processing_Time e, Standard_SLA_Days e, Is_Late e))
          (preprocess to_datetime [r]) = [(Some 6, Some 5, true)])).
Proof.
  split.
  - intros df. apply preprocess_Forall2. intros r.
    unfold is_late_spec. simpl. split; [reflexivity|]. split.
    + intros p s -> Hs. rewrite Hs. simpl. apply Z.ltb_lt.
    + intros ->. reflexivity.
  - intros r Ho Hm. unfold preprocess, preprocess_row. simpl. rewrite Ho, Hm.
    split; intros ->; reflexivity.
Qed.

Lemma is_late_strict_witness :
  (is_late_spec (preprocess_row parse_dayfirst row_A) /\
   is_late_spec (preprocess_row parse_dayfirst row_B) /\
   is_late_spec (preprocess_row parse_dayfirst row_unkeyed)) /\
  map (fun e => (Order_Processing_Time e, Standard_SLA_Days e, Is_Late e))
      (enrich [row_A]) = [(Some 5, Some 5, false)] /\
  map (fun e => (Order_Processing_Time e, Standard_SLA_Days e, Is_Late e))
      (enrich [row_B]) = [(Some 6, Some 5, true)].
Proof.
  split; [|split].
  - pose proof (proj1 (is_late_strict parse_dayfirst) [row_A; row_B; row_unkeyed]) as H.
    apply Forall2_cons_inv in H. destruct H as [HA H].
    apply Forall2_cons_inv in H. destruct H as [HB H].
    apply Forall2_cons_inv in H. destruct H as [HU _].
    split; [exact HA | split; [exact HB | exact HU]].
  - apply (proj2 (is_late_strict parse_dayfirst) row_A); reflexivity.
  - apply (proj2 (is_late_strict parse_dayfirst) row_B); reflexivity.
Defined.




(** ** The filter *)

Lemma date_leb_le (a b : date) : date_leb a b = true <-> date_le a b.
Proof.
  unfold date_leb, date_le.
  rewrite orb_true_iff, andb_true_iff, orb_true_iff, andb_true_iff.
  rewrite !Z.ltb_lt, !Z.eqb_eq, Z.leb_le. reflexivity.
Qed.

Lemma cell_eqb_eq (a b : option string) : cell_eqb a b = true <-> a = b.
Proof.
  destruct a as [x|], b as [y|]; simpl.
  - rewrite String.eqb_eq. split; [intros ->; reflexivity | intros E; injection E; auto].
  - split; discriminate.
  - split; discriminate.
  - split; reflexivity.
Qed.

Lemma isin_In (c : option string) (values : list (option string)) :
  isin c values = true <-> In c values.
Proof.
  unfold isin. rewrite existsb_exists. split.
  - intros [v [Hv E]]. apply cell_eqb_eq in E. subst v. exact Hv.
  - intros H. exists c. split; [exact H | apply cell_eqb_eq; reflexivity].
Qed.

Lemma mask_row_included (f : FilterSpec) (r : Row) :
  mask_row f r = true <-> row_included f r.
Proof.
  unfold mask_row, row_included.
  rewrite !andb_true_iff, !isin_In.
  destruct (dt_date (Order_Date (src r))) as [d|]; simpl.
  - rewrite !date_leb_le. split.
    + intros [[[H1 H2] H3] H4]. exists d. auto.
    + intros [d' [E [H1 [H2 [H3 H4]]]]]. injection E as <-. auto.
  - split.
    + intros [[[H _] _] _]. discriminate.
    + intros [d [E _]]. discriminate.
Qed.

Lemma boolean_index_map {A : Type} (p : A -> bool) (l : list A) :
  boolean_index l (map p l) = filter p l.
Proof.
  induction l as [|x l IH]; simpl; [reflexivity|].
  rewrite IH. reflexivity.
Qed.

Lemma filter_Subseq {A : Type} (p : A -> bool) (l : list A) :
  Subseq (filter p l) l.
Proof.
  induction l as [|x l IH]; simpl.
  - constructor.
  - destruct (p x); constructor; exact IH.
Qed.

(** C1: the filter keeps a row exactly when its order date is not null, the
    date lies in [start, end] (both ends included), its region is one of the
    selected regions and its ship mode one of the selected ship modes; an empty
    selection of regions or of ship modes keeps no row, whatever the dates; the
    rows kept stay in the order of the input. *)
Theorem filter_row_included (f : FilterSpec) (df : list Row) :
  df_filtered f df = filter (mask_row f) df /\
  (forall r, mask_row f r = true <-> row_included f r) /\
  (forall r, In r (df_filtered f df) <-> In r df /\ row_included f r) /\
  (regions f = [] \/ ship_modes f = [] -> df_filtered f df = []) /\
  Subseq (df_filtered f df) df.
Proof.
  assert (E : df_filtered f df = filter (mask_row f) df)
    by (unfold df_filtered, mask; apply boolean_index_map).
  split; [exact E|].
  split; [intros r; apply mask_row_included|].
  split; [|split].
  - intros r. rewrite E, filter_In, mask_row_included. reflexivity.
  - intros H. rewrite E.
    induction df as [|r df IH]; simpl; [reflexivity|].
    assert (M : mask_row f r = false).
    { unfold mask_row. destruct H as [H | H]; rewrite H; simpl.
      - rewrite andb_false_r. reflexivity.
      - rewrite andb_false_r. reflexivity. }
    rewrite M. apply IH.
    unfold df_filtered, mask. apply boolean_index_map.
  - rewrite E. apply filter_Subseq.
Qed.

(** C10: when neither selection contains a null value, a row whose Region or
    Ship Mode is null is in no filtered result, whichever values are
    selected. *)
Theorem null_category_excluded (f : FilterSpec) (df : list Row) (r : Row) :
  ~ In None (regions f) -> ~ In None (ship_modes f) ->
  Region (src r) = None \/ Ship_Mode (src r) = None ->
  ~ In r (df_filtered f df).
Proof.
  intros Hr Hm Hnull Hin.
  unfold df_filtered, mask in Hin. rewrite boolean_index_map in Hin.
  apply filter_In in Hin. destruct Hin as [_ M].
  apply mask_row_included in M.
  destruct M as [d [_ [_ [_ [Rin Min]]]]].
  destruct Hnull as [E | E].
  - rewrite E in Rin. exact (Hr Rin).
  - rewrite E in Min. exact (Hm Min).
Qed.

Lemma null_category_excluded_witness :
  ~ In (preprocess_row parse_dayfirst row_no_region)
       (df_filtered
          (mkFilter march_2024 [Some "East"; Some "West"]
             [Some "First Class"; Some "Same Day"; Some "Standard Class"])
          (enrich [row_A; row_no_region; row_zero_sales])).
Proof.
  apply null_category_excluded.
  - simpl. intros [H | [H | H]]; [discriminate | discriminate | exact H].
  - simpl. intros [H | [H | [H | H]]]; try discriminate. exact H.
  - left. reflexivity.
Defined.

(** ** Scalar metrics *)

Lemma late_pct_defined (df : list Row) :
  late_pct df =
  Some (inject_Z (100 * late_orders df) / inject_Z (Z.max 1 (Z.of_nat (List.length df))))%Q.
Proof.
  unfold late_pct, int_truediv.
  destruct (Z.max 1 (Z.of_nat (List.length df)) =? 0) eqn:E; [|reflexivity].
  apply Z.eqb_eq in E. lia.
Qed.

(** C4, as the code has it: the Profit Margin metric divides the profit sum by
    max(1, sales sum).  It is profit sum / sales sum when the sales sum
    exceeds 1 and profit sum / 1 otherwise; a sales sum of 0 is in the second
    case, so the metric is then the profit sum over 1, whatever the profit
    sum is. *)
Theorem overall_margin_guard (df : list Row) :
  ((1 <? total_sales df)%float = true ->
   overall_margin df = (total_profit df / total_sales df)%float) /\
  ((1 <? total_sales df)%float = false ->
   overall_margin df = (total_profit df / 1)%float) /\
  ((total_sales df =? 0)%float = true ->
   overall_margin df = (total_profit df / 1)%float).
Proof.
  unfold overall_margin, pymax.
  split; [intros ->; reflexivity|].
  split; [intros ->; reflexivity|].
  intros H. rewrite (eqb_zero_not_gt_one _ H). reflexivity.
Qed.

Lemma overall_margin_guard_witness :
  overall_margin (enrich [row_A; row_B]) = (6 / 20)%float /\
  overall_margin (enrich [row_half_sale]) = 0.25%float /\
  overall_margin (enrich [row_zero_sales]) = 100%float.
Proof.
  split; [|split].
  - apply (proj1 (overall_margin_guard (enrich [row_A; row_B]))). reflexivity.
  - apply (proj1 (proj2 (overall_margin_guard (enrich [row_half_sale])))). reflexivity.
  - apply (proj2 (proj2 (overall_margin_guard (enrich [row_zero_sales])))). reflexivity.
Defined.

(** C4, as stated, fails on one order with sales 0 and profit 100: the sales
    sum is 0 and the metric is 100 (shown as 10000.00%), neither 0 nor
    undefined. *)
Lemma overall_margin_zero_sales_counterexample :
  (total_sales (enrich [row_zero_sales]) =? 0)%float = true /\
  total_profit (enrich [row_zero_sales]) = 100%float /\
  overall_margin (enrich [row_zero_sales]) = 100%float /\
  ~ zero_or_undefined (overall_margin (enrich [row_zero_sales])).
Proof.
  split; [reflexivity|]. split; [reflexivity|]. split; [reflexivity|].
  intros [H | H]; vm_compute in H; discriminate H.
Qed.

Lemma take_nil {A : Type} (ix : list nat) : take (@nil A) ix = [].
Proof.
  unfold take. induction ix as [|i ix IH]; simpl; [reflexivity|].
  destruct i; simpl; exact IH.
Qed.

(** C8: on an empty filtered table every metric and aggregation is defined:
    the sums are 0, the means are null, the counts and distinct counts are 0,
    the late percentage is 0 (its divisor max(1, rows) is never 0, on any
    table), every group-by table is empty, and the ranked selections are empty,
    their metric reading "N/A". *)
Theorem empty_table_metrics (argsort : list float -> list nat) :
  (forall f, df_filtered f [] = []) /\
  avg_processing [] = nan /\ avg_discount [] = nan /\
  total_sales [] = 0%float /\ total_profit [] = 0%float /\
  total_quantity [] = Some 0 /\
  total_orders [] = 0 /\ total_customers [] = 0 /\ late_orders [] = 0 /\
  late_pct [] = Some 0%Q /\
  (forall df, late_pct df <> None) /\
  overall_margin [] = 0%float /\
  (forall (K A : Type) (cmp : K -> K -> comparison) (key : Row -> option K)
          (agg : K -> list Row -> A), groupby cmp key agg [] = []) /\
  pri [] = [] /\ prod_agg [] = [] /\ cust_profit [] = [] /\
  best_selling argsort [] = [] /\ most_profitable argsort [] = [] /\
  product_metric (best_selling argsort []) = "N/A" /\
  product_metric (most_profitable argsort []) = "N/A" /\
  top10_sales argsort [] = [] /\ bottom10_profit argsort [] = [] /\
  top_cust_profit argsort [] = [].
Proof.
  assert (S : forall (A : Type) (col : A -> float) asc,
             sort_values argsort col asc [] = []).
  { intros A col asc. unfold sort_values. apply take_nil. }
  repeat match goal with |- _ /\ _ => split end;
    try reflexivity.
  - intros df. rewrite late_pct_defined. discriminate.
  - unfold best_selling. simpl prod_agg. rewrite S. reflexivity.
  - unfold most_profitable. simpl prod_agg. rewrite S. reflexivity.
  - unfold best_selling. simpl prod_agg. rewrite S. reflexivity.
  - unfold most_profitable. simpl prod_agg. rewrite S. reflexivity.
  - unfold top10_sales. simpl prod_agg. rewrite S. reflexivity.
  - unfold bottom10_profit. simpl prod_agg. rewrite S. reflexivity.
  - unfold top_cust_profit. simpl cust_profit. rewrite S. reflexivity.
Qed.

(** ** groupby *)

Lemma str_cmp_order : KeyOrder str_cmp.
Proof.
  constructor.
  - intros a b. split.
    + apply String.compare_eq_iff.
    + intros ->. unfold str_cmp.
      pose proof (String.compare_antisym b b) as H.
      destruct (String.compare b b); [reflexivity | discriminate | discriminate].
  - apply String.compare_antisym.
  - intros a b c H1 H2. unfold str_cmp in *.
    apply String_as_OT.cmp_lt in H1, H2. apply String_as_OT.cmp_lt.
    eapply String_as_OT.lt_trans; eauto.
Qed.

Lemma dropna_In {A : Type} (x : A) (l : list (option A)) :
  In x (dropna l) <-> In (Some x) l.
Proof.
  unfold dropna. rewrite in_flat_map. split.
  - intros [c [Hc Hx]]. destruct c as [y|]; simpl in Hx.
    + destruct Hx as [-> | []]. exact Hc.
    + contradiction.
  - intros H. exists (Some x). split; [exact H | simpl; auto].
Qed.

Section GroupByFacts.

Context {K : Type}.
Variable cmp : K -> K -> comparison.
Hypothesis cmp_ok : KeyOrder cmp.

Let klt (a b : K) : Prop := cmp a b = Lt.

Lemma cmp_refl (a : K) : cmp a a = Eq.
Proof. apply (cmp_eq cmp cmp_ok). reflexivity. Qed.

Lemma insert_key_In (x k : K) (l : list K) :
  In x (insert_key cmp k l) <-> x = k \/ In x l.
Proof.
  induction l as [|y l IH]; simpl.
  - intuition.
  - destruct (cmp k y) eqn:E; simpl.
    + apply (cmp_eq cmp cmp_ok) in E. subst y. intuition.
    + intuition.
    + rewrite IH. intuition.
Qed.

Lemma insert_key_sorted (k : K) (l : list K) :
  StronglySorted klt l -> StronglySorted klt (insert_key cmp k l).
Proof.
  induction 1 as [|y l Hs IH Hy]; simpl.
  - constructor; constructor.
  - destruct (cmp k y) eqn:E.
    + constructor; assumption.
    + constructor; [constructor; assumption|].
      constructor; [exact E|].
      rewrite Forall_forall in *. intros z Hz.
      apply (cmp_trans cmp cmp_ok k y z E). apply Hy. exact Hz.
    + constructor; [exact IH|].
      rewrite Forall_forall in *. intros z Hz.
      apply insert_key_In in Hz. destruct Hz as [-> | Hz].
      * unfold klt. rewrite (cmp_swap cmp cmp_ok), E. reflexivity.
      * apply Hy. exact Hz.
Qed.

Lemma group_keys_sorted (key : Row -> option K) (df : list Row) :
  StronglySorted klt (group_keys cmp key df).
Proof.
  unfold group_keys. induction (dropna (map key df)) as [|k l IH]; simpl.
  - constructor.
  - apply insert_key_sorted. exact IH.
Qed.

Lemma sorted_NoDup (l : list K) : StronglySorted klt l -> NoDup l.
Proof.
  induction 1 as [|y l Hs IH Hy]; constructor; [|exact IH].
  intros Hin. rewrite Forall_forall in Hy. specialize (Hy y Hin).
  unfold klt in Hy. rewrite cmp_refl in Hy. discriminate.
Qed.

Lemma group_keys_In (key : Row -> option K) (df : list Row) (k : K) :
  In k (group_keys cmp key df) <-> exists r, In r df /\ key r = Some k.
Proof.
  assert (E : In k (group_keys cmp key df) <-> In k (dropna (map key df))).
  { unfold group_keys. induction (dropna (map key df)) as [|y l IH]; simpl.
    - reflexivity.
    - rewrite insert_key_In, IH. intuition. }
  rewrite E, dropna_In, in_map_iff.
  split; intros [r [H1 H2]]; exists r; auto.
Qed.

Lemma has_key_iff (key : Row -> option K) (k : K) (r : Row) :
  has_key cmp key k r = true <-> key r = Some k.
Proof.
  unfold has_key. destruct (key r) as [x|].
  - destruct (cmp x k) eqn:E.
    + apply (cmp_eq cmp cmp_ok) in E. subst x. intuition.
    + split; [discriminate|]. intros H. injection H as ->.
      rewrite cmp_refl in E. discriminate.
    + split; [discriminate|]. intros H. injection H as ->.
      rewrite cmp_refl in E. discriminate.
  - split; discriminate.
Qed.

Lemma group_rows_In (key : Row -> option K) (df : list Row) (k : K) (r : Row) :
  In r (group_rows cmp key df k) <-> In r df /\ key r = Some k.
Proof.
  unfold group_rows. rewrite filter_In, has_key_iff. reflexivity.
Qed.

End GroupByFacts.
(** C6, as the code has it: every group-by of the dashboard takes pandas'
    defaults, so a row whose key is null belongs to no group.  The aggregated
    result has one row per distinct non-null key, in ascending key order, and
    the row of a key is the aggregate of the bucket of that key, which holds
    exactly the rows with that key, in frame order; a row with a null key is
    in no bucket, so no row of the result accounts for it. *)
Theorem groupby_drops_null_keys {K A : Type} (cmp : K -> K -> comparison)
    (key : Row -> option K) (agg : K -> list Row -> A) (df : list Row) :
  KeyOrder cmp ->
  (forall k, In k (group_keys cmp key df) <-> exists r, In r df /\ key r = Some k) /\
  NoDup (group_keys cmp key df) /\
  StronglySorted (fun a b => cmp a b = Lt) (group_keys cmp key df) /\
  Forall2 (fun k out => out = agg k (group_rows cmp key df k))
    (group_keys cmp key df) (groupby cmp key agg df) /\
  (forall k, Subseq (group_rows cmp key df k) df) /\
  (forall r k, In r (group_rows cmp key df k) <-> In r df /\ key r = Some k) /\
  (forall r, key r = None -> forall k, ~ In r (group_rows cmp key df k)).
Proof.
  intros Hc.
  split; [intros k; apply group_keys_In; exact Hc|].
  split; [apply (sorted_NoDup cmp Hc); apply group_keys_sorted; exact Hc|].
  split; [apply group_keys_sorted; exact Hc|].
  split.
  { unfold groupby. induction (group_keys cmp key df) as [|k ks IH]; simpl;
      constructor; [reflexivity | exact IH]. }
  split; [intros k; apply filter_Subseq|].
  split; [intros r k; apply group_rows_In; exact Hc|].
  intros r Hn k Hin. apply (group_rows_In cmp Hc) in Hin.
  destruct Hin as [_ E]. rewrite Hn in E. discriminate.
Qed.

Lemma groupby_drops_null_keys_witness :
  group_keys str_cmp (fun r => Order_Priority (src r))
    (enrich [row_B; row_unkeyed; row_A; row_zero_sales]) = ["High"; "Low"] /\
  Forall2 (fun k out => out = map (fun r => Order_ID (src r))
                                (group_rows str_cmp (fun r => Order_Priority (src r))
                                   (enrich [row_B; row_unkeyed; row_A; row_zero_sales]) k))
    ["High"; "Low"] [[Some "O-1"; Some "O-4"]; [Some "O-2"]] /\
  map Order_Count (pri (enrich [row_B; row_unkeyed; row_A; row_zero_sales])) = [2; 1].
Proof.
  pose proof (groupby_drops_null_keys str_cmp (fun r => Order_Priority (src r))
                (fun k g => map (fun r => Order_ID (src r)) g)
                (enrich [row_B; row_unkeyed; row_A; row_zero_sales]) str_cmp_order)
    as [_ [_ [_ [F _]]]].
  split; [reflexivity|]. split; [exact F|].
  reflexivity.
Defined.

(** C6, as stated, fails on two orders of which one has no Order Priority:
    the priority table has the single bucket "High", counting one order, and
    the order without a priority is in no bucket; a table made of that order
    alone aggregates by product to the empty table. *)
Lemma null_key_bucket_counterexample :
  In (preprocess_row parse_dayfirst row_unkeyed) (enrich [row_A; row_unkeyed]) /\
  Order_Priority (src (preprocess_row parse_dayfirst row_unkeyed)) = None /\
  map pri_Order_Priority (pri (enrich [row_A; row_unkeyed])) = ["High"] /\
  map Order_Count (pri (enrich [row_A; row_unkeyed])) = [1] /\
  prod_agg (enrich [row_unkeyed]) = [] /\
  ~ no_row_dropped str_cmp (fun r => Order_Priority (src r))
      (enrich [row_A; row_unkeyed]).
Proof.
  split; [simpl; auto|].
  split; [reflexivity|].
  split; [reflexivity|].
  split; [reflexivity|].
  split; [reflexivity|].
  intros H.
  destruct (H (preprocess_row parse_dayfirst row_unkeyed)) as [k [_ Hk]].
  - simpl. auto.
  - apply (group_rows_In str_cmp str_cmp_order) in Hk.
    destruct Hk as [_ E]. discriminate.
Qed.

(** ** sort_values *)

Lemma take_app {A : Type} (tbl : list A) (ix1 ix2 : list nat) :
  take tbl (ix1 ++ ix2) = take tbl ix1 ++ take tbl ix2.
Proof. apply flat_map_app. Qed.

Lemma take_cons {A : Type} (tbl : list A) (i : nat) (ix : list nat) :
  take tbl (i :: ix) = take tbl [i] ++ take tbl ix.
Proof. apply (take_app tbl [i] ix). Qed.

Lemma take_one_rev {A : Type} (tbl : list A) (i : nat) :
  rev (take tbl [i]) = take tbl [i].
Proof. unfold take. simpl. destruct (nth_error tbl i); reflexivity. Qed.

Lemma take_rev {A : Type} (tbl : list A) (ix : list nat) :
  take tbl (rev ix) = rev (take tbl ix).
Proof.
  induction ix as [|i ix IH]; [reflexivity|].
  rewrite take_cons, rev_app_distr, take_one_rev. simpl rev.
  rewrite take_app, IH. reflexivity.
Qed.

Lemma take_map {A B : Type} (f : A -> B) (tbl : list A) (ix : list nat) :
  map f (take tbl ix) = take (map f tbl) ix.
Proof.
  induction ix as [|i ix IH]; [reflexivity|].
  rewrite (take_cons tbl), (take_cons (map f tbl)), map_app, IH. f_equal.
  unfold take. simpl. rewrite nth_error_map.
  destruct (nth_error tbl i); reflexivity.
Qed.

Lemma take_seq_from {A : Type} (pre tbl : list A) :
  take (pre ++ tbl) (seq (List.length pre) (List.length tbl)) = tbl.
Proof.
  revert pre. induction tbl as [|x tbl IH]; intros pre; [reflexivity|].
  simpl List.length. simpl seq. rewrite take_cons.
  unfold take at 1. simpl.
  rewrite nth_error_app2 by lia. rewrite Nat.sub_diag. simpl.
  f_equal.
  specialize (IH (pre ++ [x])).
  rewrite <- app_assoc, length_app in IH. simpl in IH.
  rewrite Nat.add_1_r in IH. exact IH.
Qed.

Lemma take_seq {A : Type} (tbl : list A) :
  take tbl (seq 0 (List.length tbl)) = tbl.
Proof. apply (take_seq_from [] tbl). Qed.

Lemma take_perm {A : Type} (tbl : list A) (ix ix' : list nat) :
  Permutation ix ix' -> Permutation (take tbl ix) (take tbl ix').
Proof. intros H. unfold take. apply Permutation_flat_map. exact H. Qed.

Lemma take_valid {A : Type} (tbl : list A) (d : A) (ix : list nat) :
  (forall i, In i ix -> (i < List.length tbl)%nat) ->
  take tbl ix = map (fun i => nth i tbl d) ix.
Proof.
  induction ix as [|i ix IH]; intros H; [reflexivity|].
  rewrite take_cons, IH by (intros j Hj; apply H; right; exact Hj).
  unfold take. simpl.
  rewrite (nth_error_nth' tbl d) by (apply H; left; reflexivity).
  reflexivity.
Qed.

(** Reading the reversed positions through the table is reading the positions
    through the reversed table. *)
Lemma take_reversed {A : Type} (tbl : list A) (ix : list nat) :
  take tbl (take (rev (seq 0 (List.length tbl))) ix) = take (rev tbl) ix.
Proof.
  induction ix as [|i ix IH]; [reflexivity|].
  rewrite (take_cons (rev (seq 0 (List.length tbl)))), take_app, IH.
  rewrite (take_cons (rev tbl)). f_equal.
  unfold take. simpl.
  rewrite !nth_error_rev, length_seq.
  destruct (i <? List.length tbl)%nat eqn:E; [|reflexivity].
  apply Nat.ltb_lt in E.
  rewrite nth_error_seq.
  assert (L : (List.length tbl - S i <? List.length tbl)%nat = true)
    by (apply Nat.ltb_lt; lia).
  rewrite L. simpl. rewrite app_nil_r. reflexivity.
Qed.

Lemma StronglySorted_snoc {A : Type} (R : A -> A -> Prop) (l : list A) (x : A) :
  StronglySorted R l -> Forall (fun y => R y x) l -> StronglySorted R (l ++ [x]).
Proof.
  induction 1 as [|y l Hs IH Hy]; intros Hx; simpl.
  - constructor; constructor.
  - inversion Hx; subst. constructor.
    + apply IH. assumption.
    + apply Forall_app. split; [exact Hy|]. constructor; [assumption | constructor].
Qed.

Lemma StronglySorted_rev {A : Type} (R : A -> A -> Prop) (l : list A) :
  StronglySorted R l -> StronglySorted (fun a b => R b a) (rev l).
Proof.
  induction 1 as [|y l Hs IH Hy]; simpl.
  - constructor.
  - apply StronglySorted_snoc; [exact IH|].
    apply Forall_rev. exact Hy.
Qed.

Lemma StronglySorted_map_inv {A B : Type} (f : A -> B) (R : B -> B -> Prop)
    (l : list A) :
  StronglySorted R (map f l) -> StronglySorted (fun a b => R (f a) (f b)) l.
Proof.
  induction l as [|x l IH]; simpl; intros H.
  - constructor.
  - apply StronglySorted_inv in H. destruct H as [Hs Hx].
    constructor; [apply IH; exact Hs|].
    rewrite Forall_forall in *. intros y Hy. apply Hx. apply in_map. exact Hy.
Qed.

Lemma StronglySorted_app_inv {A : Type} (R : A -> A -> Prop) (l1 l2 : list A) :
  StronglySorted R (l1 ++ l2) ->
  StronglySorted R l1 /\ forall a b, In a l1 -> In b l2 -> R a b.
Proof.
  induction l1 as [|x l1 IH]; simpl; intros H.
  - split; [constructor | intros a b []].
  - apply StronglySorted_inv in H. destruct H as [Hs Hx].
    destruct (IH Hs) as [S1 S2].
    rewrite Forall_app in Hx. destruct Hx as [Hx1 Hx2].
    split; [constructor; assumption|].
    intros a b [-> | Ha] Hb.
    + rewrite Forall_forall in Hx2. apply Hx2. exact Hb.
    + apply S2; assumption.
Qed.

Lemma StronglySorted_skipn {A : Type} (R : A -> A -> Prop) (l : list A) (k : nat) :
  StronglySorted R l -> StronglySorted R (skipn k l).
Proof.
  intros S. revert k. induction S as [|x l Hs IH Hx]; intros k.
  - rewrite skipn_nil. constructor.
  - destruct k; simpl; [constructor; assumption | apply IH].
Qed.

Lemma filter_all {A : Type} (p : A -> bool) (l : list A) :
  (forall x, In x l -> p x = true) -> filter p l = l.
Proof.
  induction l as [|x l IH]; intros H; simpl; [reflexivity|].
  rewrite (H x) by (left; reflexivity). f_equal.
  apply IH. intros y Hy. apply H. right. exact Hy.
Qed.

Lemma filter_none {A : Type} (p : A -> bool) (l : list A) :
  (forall x, In x l -> p x = false) -> filter p l = [].
Proof.
  induction l as [|x l IH]; intros H; simpl; [reflexivity|].
  rewrite (H x) by (left; reflexivity).
  apply IH. intros y Hy. apply H. right. exact Hy.
Qed.

Lemma take_seq_id (n : nat) (ix : list nat) :
  (forall i, In i ix -> (i < n)%nat) -> take (seq 0 n) ix = ix.
Proof.
  intros H. rewrite (take_valid _ O) by (rewrite length_seq; exact H).
  rewrite <- (map_id ix) at 2. apply map_ext_in.
  intros i Hi. apply seq_nth. apply H. exact Hi.
Qed.

(** ** NaN and the sort *)

(** A column of two or more values that ascends holds no NaN: every value is
    compared with another one. *)
Lemma sorted_no_nan (l : list float) :
  StronglySorted fle l -> (2 <= List.length l)%nat ->
  forall x, In x l -> PrimFloat.is_nan x = false.
Proof.
  intros S L x Hx.
  destruct l as [|a [|b t]]; simpl in L; try lia.
  apply StronglySorted_inv in S. destruct S as [_ Ha].
  rewrite Forall_forall in Ha.
  destruct Hx as [E | Hx].
  - subst x. apply (leb_not_nan a b). apply Ha. left. reflexivity.
  - apply (leb_not_nan a x). apply Ha. exact Hx.
Qed.

Lemma is_argsort_values (l : list float) (ix : list nat) :
  is_argsort l ix ->
  Permutation (map (fun i => nth i l 0%float) ix) l.
Proof.
  intros [P _].
  rewrite <- (take_valid l 0%float).
  - rewrite <- (take_seq l) at 2. apply take_perm. exact P.
  - intros i Hi. apply (Permutation_in _ P) in Hi. apply in_seq in Hi. lia.
Qed.

Lemma is_argsort_no_nan (l : list float) (ix : list nat) :
  is_argsort l ix -> (2 <= List.length l)%nat -> forallb notnan l = true.
Proof.
  intros H L. pose proof (is_argsort_values l ix H) as V. destruct H as [_ S].
  apply forallb_forall. intros x Hx. unfold notnan.
  rewrite (sorted_no_nan _ S); [reflexivity | | ].
  - rewrite (Permutation_length V). exact L.
  - apply (Permutation_in _ (Permutation_sym V)). exact Hx.
Qed.

Lemma forallb_rev {A : Type} (p : A -> bool) (l : list A) :
  forallb p (rev l) = forallb p l.
Proof.
  destruct (forallb p l) eqn:E.
  - apply forallb_forall. intros x Hx. apply in_rev in Hx.
    rewrite forallb_forall in E. apply E. exact Hx.
  - apply not_true_is_false. intros H. rewrite forallb_forall in H.
    assert (T : forallb p l = true).
    { apply forallb_forall. intros x Hx. apply H. apply in_rev in Hx. exact Hx. }
    congruence.
Qed.

Section NargsortFacts.

Variable argsort : list float -> list nat.

(** Without NaN nothing is set aside. *)
Lemma nargsort_no_nan (items : list float) (ascending : bool) :
  forallb notnan items = true ->
  nargsort argsort items ascending
  = if ascending then take (seq 0 (List.length items)) (argsort items)
    else rev (take (rev (seq 0 (List.length items))) (argsort (rev items))).
Proof.
  intros N. rewrite forallb_forall in N. unfold nargsort.
  assert (K : forall i, In i (seq 0 (List.length items)) ->
                        notnan (nth i items nan) = true).
  { intros i Hi. apply in_seq in Hi. apply N. apply nth_In. lia. }
  rewrite (filter_all notnan items N).
  rewrite (filter_all _ (seq 0 (List.length items)) K).
  rewrite (filter_none (fun i => negb (notnan (nth i items nan)))).
  - rewrite app_nil_r. destruct ascending; reflexivity.
  - intros i Hi. rewrite (K i Hi). reflexivity.
Qed.

(** A column that is one NaN. *)
Lemma nargsort_single_nan (x : float) (ascending : bool) :
  notnan x = false -> nargsort argsort [x] ascending = [0%nat].
Proof.
  intros N. unfold nargsort. simpl. rewrite N.
  destruct ascending; simpl; rewrite take_nil; reflexivity.
Qed.

Lemma sort_values_single_nan {A : Type} (col : A -> float) (ascending : bool) (a : A) :
  notnan (col a) = false -> sort_values argsort col ascending [a] = [a].
Proof.
  intros N. unfold sort_values. simpl map.
  rewrite (nargsort_single_nan _ _ N). reflexivity.
Qed.

(** A table whose column [argsort] can order holds no NaN in that column,
    unless it is a single row. *)
Lemma sortable_column {A : Type} (col : A -> float) (tbl : list A) (items : list float)
    (ix : list nat) :
  is_argsort items ix -> Permutation items (map col tbl) ->
  forallb notnan (map col tbl) = true \/
  exists a, tbl = [a] /\ notnan (col a) = false.
Proof.
  intros H P.
  destruct (forallb notnan (map col tbl)) eqn:N; [left; reflexivity | right].
  destruct tbl as [|a [|b t]].
  - discriminate N.
  - exists a. split; [reflexivity|]. simpl in N.
    rewrite andb_true_r in N. exact N.
  - exfalso.
    assert (L : (2 <= List.length items)%nat)
      by (rewrite (Permutation_length P); simpl; lia).
    pose proof (is_argsort_no_nan _ _ H L) as T.
    assert (T' : forallb notnan (map col (a :: b :: t)) = true).
    { apply forallb_forall. intros x Hx. rewrite forallb_forall in T. apply T.
      apply (Permutation_in _ (Permutation_sym P)). exact Hx. }
    congruence.
Qed.

(** A descending [sort_values] returns the rows of the table, each once, the
    column descending, whenever the [argsort] it calls does its job on the
    reversed column. *)
Lemma sort_values_descending {A : Type} (col : A -> float) (tbl : list A) :
  is_argsort (rev (map col tbl)) (argsort (rev (map col tbl))) ->
  Permutation (sort_values argsort col false tbl) tbl /\
  StronglySorted (fun a b => fle (col b) (col a)) (sort_values argsort col false tbl).
Proof.
  intros H.
  destruct (sortable_column col tbl _ _ H (Permutation_sym (Permutation_rev _)))
    as [N | [a [-> N]]].
  2:{ rewrite (sort_values_single_nan col false a N).
      split; [apply Permutation_refl | constructor; constructor]. }
  destruct H as [P S].
  unfold sort_values. rewrite (nargsort_no_nan _ _ N).
  set (items := map col tbl) in *. set (ix := argsort (rev items)) in *.
  rewrite length_rev in P.
  assert (Ln : List.length items = List.length tbl) by apply length_map.
  split.
  - rewrite <- (take_seq tbl) at 2. apply take_perm.
    rewrite <- Permutation_rev.
    rewrite Ln in *.
    transitivity (rev (seq 0 (List.length tbl))); [|symmetry; apply Permutation_rev].
    pose proof (take_perm (rev (seq 0 (List.length tbl))) _ _ P) as T.
    assert (E : take (rev (seq 0 (List.length tbl))) (seq 0 (List.length tbl))
                = rev (seq 0 (List.length tbl))).
    { pose proof (take_seq (rev (seq 0 (List.length tbl)))) as E.
      rewrite length_rev, length_seq in E. exact E. }
    rewrite E in T. exact T.
  - apply (StronglySorted_map_inv col (fun x y => fle y x)).
    rewrite take_map. fold items.
    rewrite take_rev, take_reversed.
    apply StronglySorted_rev.
    rewrite (take_valid _ 0%float); [exact S|].
    intros i Hi. apply (Permutation_in _ P) in Hi. apply in_seq in Hi.
    rewrite length_rev. lia.
Qed.

(** An ascending [sort_values] returns the rows of the table, each once, the
    column ascending, whenever [argsort] does its job on the column. *)
Lemma sort_values_ascending {A : Type} (col : A -> float) (tbl : list A) :
  is_argsort (map col tbl) (argsort (map col tbl)) ->
  Permutation (sort_values argsort col true tbl) tbl /\
  StronglySorted (fun a b => fle (col a) (col b)) (sort_values argsort col true tbl).
Proof.
  intros H.
  destruct (sortable_column col tbl _ _ H (Permutation_refl _)) as [N | [a [-> N]]].
  2:{ rewrite (sort_values_single_nan col true a N).
      split; [apply Permutation_refl | constructor; constructor]. }
  destruct H as [P S].
  unfold sort_values. rewrite (nargsort_no_nan _ _ N).
  assert (V : forall i, In i (argsort (map col tbl)) ->
                        (i < List.length (map col tbl))%nat).
  { intros i Hi. apply (Permutation_in _ P) in Hi. apply in_seq in Hi. lia. }
  rewrite (take_seq_id _ _ V).
  split.
  - transitivity (take tbl (seq 0 (List.length tbl)));
      [|rewrite take_seq; apply Permutation_refl].
    apply take_perm. rewrite length_map in P. exact P.
  - apply (StronglySorted_map_inv col fle).
    rewrite take_map, (take_valid _ 0%float) by exact V. exact S.
Qed.

End NargsortFacts.

(** ** head and tail of a sorted table *)

Lemma head_In {A : Type} (n : nat) (l : list A) (x : A) :
  In x (head n l) -> In x l.
Proof.
  intros H. rewrite <- (firstn_skipn n l). apply in_or_app. left. exact H.
Qed.

Lemma head_dominates {A : Type} (R : A -> A -> Prop) (n : nat) (tbl : list A) :
  StronglySorted R tbl ->
  StronglySorted R (head n tbl) /\
  forall g g', In g (head n tbl) -> In g' tbl -> ~ In g' (head n tbl) -> R g g'.
Proof.
  intros S. unfold head.
  rewrite <- (firstn_skipn n tbl) in S.
  apply StronglySorted_app_inv in S. destruct S as [S1 S2].
  split; [exact S1|].
  intros g g' Hg Hg' Hn.
  rewrite <- (firstn_skipn n tbl) in Hg'. apply in_app_or in Hg'.
  destruct Hg' as [D | D]; [contradiction|].
  apply S2; assumption.
Qed.

Lemma head_one_maximal {A : Type} (R : A -> A -> Prop) (tbl : list A) :
  StronglySorted R tbl ->
  forall g g', In g (head 1 tbl) -> In g' tbl -> g' = g \/ R g g'.
Proof.
  intros S g g' Hg Hg'. destruct tbl as [|h t]; [destruct Hg|].
  simpl in Hg. destruct Hg as [<- | []].
  apply StronglySorted_inv in S. destruct S as [_ Hh].
  destruct Hg' as [<- | Hg']; [left; reflexivity | right].
  rewrite Forall_forall in Hh. apply Hh. exact Hg'.
Qed.

Lemma tail_dominates {A : Type} (R : A -> A -> Prop) (n : nat) (tbl : list A) :
  StronglySorted R tbl ->
  StronglySorted R (tail n tbl) /\
  forall g g', In g (tail n tbl) -> In g' tbl -> ~ In g' (tail n tbl) -> R g' g.
Proof.
  intros S. unfold tail.
  split; [apply StronglySorted_skipn; exact S|].
  intros g g' Hg Hg' Hn.
  rewrite <- (firstn_skipn (List.length tbl - n) tbl) in S, Hg'.
  apply StronglySorted_app_inv in S. destruct S as [_ S2].
  apply in_app_or in Hg'.
  destruct Hg' as [D | D]; [|contradiction].
  apply S2; assumption.
Qed.

Lemma tail_length {A : Type} (n : nat) (l : list A) :
  List.length (tail n l) = Nat.min n (List.length l).
Proof. unfold tail. rewrite length_skipn. lia. Qed.

Lemma tail_last {A : Type} (n : nat) (l : list A) (a : A) :
  (0 < n)%nat -> In a (tail n (l ++ [a])).
Proof.
  intros Hn. unfold tail. rewrite length_app. simpl.
  rewrite skipn_app. apply in_or_app. right.
  replace (List.length l + 1 - n - List.length l)%nat with O by lia.
  simpl. auto.
Qed.

(** ** The two insertion sorts *)

Lemma nth_notnan (l : list float) (i : nat) :
  forallb notnan l = true -> PrimFloat.is_nan (nth i l 0%float) = false.
Proof.
  intros N. destruct (nth_in_or_default i l 0%float) as [H | ->]; [|reflexivity].
  rewrite forallb_forall in N. specialize (N _ H).
  unfold notnan in N. apply negb_true_iff in N. exact N.
Qed.

Lemma insert_ix_perm (strict : bool) (l : list float) (i : nat) (ix : list nat) :
  Permutation (insert_ix strict l i ix) (i :: ix).
Proof.
  induction ix as [|j t IH]; simpl; [apply Permutation_refl|].
  destruct (if strict then (nth i l 0 <? nth j l 0)%float
            else (nth i l 0 <=? nth j l 0)%float).
  - apply Permutation_refl.
  - eapply perm_trans; [apply perm_skip; exact IH | apply perm_swap].
Qed.

Lemma insert_ix_test (strict : bool) (a b : float) :
  (if strict then (a <? b)%float else (a <=? b)%float) = true -> fle a b.
Proof.
  destruct strict; intros H; [apply ltb_leb; exact H | exact H].
Qed.

Lemma insert_ix_test_false (strict : bool) (a b : float) :
  PrimFloat.is_nan a = false -> PrimFloat.is_nan b = false ->
  (if strict then (a <? b)%float else (a <=? b)%float) = false -> fle b a.
Proof.
  destruct strict; intros Ha Hb H.
  - apply ltb_false_leb; assumption.
  - apply leb_false_leb; assumption.
Qed.

Lemma insert_ix_sorted (strict : bool) (l : list float) (i : nat) (ix : list nat) :
  forallb notnan l = true ->
  StronglySorted fle (map (fun k => nth k l 0%float) ix) ->
  StronglySorted fle (map (fun k => nth k l 0%float) (insert_ix strict l i ix)).
Proof.
  intros N.
  induction ix as [|j t IH]; simpl; intros S.
  - constructor; constructor.
  - apply StronglySorted_inv in S. destruct S as [St Hj].
    destruct (if strict then (nth i l 0 <? nth j l 0)%float
              else (nth i l 0 <=? nth j l 0)%float) eqn:T; simpl.
    + apply insert_ix_test in T.
      constructor; [constructor; assumption|].
      constructor; [exact T|].
      rewrite Forall_forall in *. intros x Hx.
      eapply leb_trans; [exact T | apply Hj; exact Hx].
    + apply insert_ix_test_false in T; try (apply nth_notnan; exact N).
      constructor; [apply IH; exact St|].
      rewrite Forall_forall in *. intros x Hx.
      apply (Permutation_in _ (Permutation_map _ (insert_ix_perm strict l i t))) in Hx.
      destruct Hx as [<- | Hx]; [exact T | apply Hj; exact Hx].
Qed.

(** The two insertion sorts do what [is_argsort] asks, on every column
    without NaN. *)
Lemma insertion_argsort_ok (strict : bool) (l : list float) :
  forallb notnan l = true ->
  is_argsort l (fold_right (insert_ix strict l) [] (seq 0 (List.length l))).
Proof.
  intros N. unfold is_argsort.
  induction (seq 0 (List.length l)) as [|k ks [P S]]; simpl.
  - split; constructor.
  - split.
    + eapply perm_trans; [apply insert_ix_perm | apply perm_skip; exact P].
    + apply insert_ix_sorted; [exact N | exact S].
Qed.

(** ** The ranked selections *)

Lemma prod_agg_names (df : list Row) :
  map prod_Product_Name (prod_agg df)
  = group_keys str_cmp (fun r => Product_Name (src r)) df.
Proof. unfold prod_agg, groupby. rewrite map_map. simpl. apply map_id. Qed.

Lemma cust_profit_names (df : list Row) :
  map cust_Customer_Name (cust_profit df)
  = group_keys str_cmp (fun r => Customer_Name (src r)) df.
Proof. unfold cust_profit, groupby. rewrite map_map. simpl. apply map_id. Qed.

(** C7, as the code has it: the ranked selections are computed from the group
    table, which group-by builds in ascending key order.  Provided the library
    sort orders the measure, the top-1-by-sales group has at least the sales
    of every other group, and the top-10-by-profit list is in non-increasing
    order of profit with every listed group at least as profitable as every
    group left out.  The order among groups of equal measure is the sort's on
    that key-ordered table, not the input's. *)
Theorem ranked_selections_by_measure (argsort : list float -> list nat)
    (df : list Row) :
  is_argsort (rev (map prod_Sales (prod_agg df)))
             (argsort (rev (map prod_Sales (prod_agg df)))) ->
  is_argsort (rev (map cust_Profit (cust_profit df)))
             (argsort (rev (map cust_Profit (cust_profit df)))) ->
  StronglySorted (fun a b => str_cmp a b = Lt) (map prod_Product_Name (prod_agg df)) /\
  StronglySorted (fun a b => str_cmp a b = Lt) (map cust_Customer_Name (cust_profit df)) /\
  (forall g, In g (best_selling argsort df) ->
     In g (prod_agg df) /\
     forall g', In g' (prod_agg df) -> g' <> g -> fle (prod_Sales g') (prod_Sales g)) /\
  List.length (best_selling argsort df) = Nat.min 1 (List.length (prod_agg df)) /\
  (forall g, In g (top_cust_profit argsort df) -> In g (cust_profit df)) /\
  StronglySorted (fun a b => fle (cust_Profit b) (cust_Profit a))
    (top_cust_profit argsort df) /\
  (forall g g', In g (top_cust_profit argsort df) -> In g' (cust_profit df) ->
     ~ In g' (top_cust_profit argsort df) -> fle (cust_Profit g') (cust_Profit g)) /\
  List.length (top_cust_profit argsort df) = Nat.min 10 (List.length (cust_profit df)).
Proof.
  intros Hs Hp.
  destruct (sort_values_descending argsort prod_Sales (prod_agg df) Hs) as [Ps Ss].
  destruct (sort_values_descending argsort cust_Profit (cust_profit df) Hp) as [Pp Sp].
  split.
  { rewrite prod_agg_names. apply group_keys_sorted. exact str_cmp_order. }
  split.
  { rewrite cust_profit_names. apply group_keys_sorted. exact str_cmp_order. }
  split.
  { intros g Hg. split.
    - apply (Permutation_in _ Ps). apply (head_In 1). exact Hg.
    - intros g' Hg' Hne.
      destruct (head_one_maximal _ _ Ss g g' Hg) as [E | L];
        [|contradiction | exact L].
      apply (Permutation_in _ (Permutation_sym Ps)). exact Hg'. }
  split.
  { unfold best_selling, head. rewrite length_firstn.
    rewrite (Permutation_length Ps). reflexivity. }
  split.
  { intros g Hg. apply (Permutation_in _ Pp). apply (head_In 10). exact Hg. }
  destruct (head_dominates _ 10 _ Sp) as [D1 D2].
  split; [exact D1|].
  split.
  { intros g g' Hg Hg' Hn. apply (D2 g g' Hg); [|exact Hn].
    apply (Permutation_in _ (Permutation_sym Pp)). exact Hg'. }
  unfold top_cust_profit, head. rewrite length_firstn.
  rewrite (Permutation_length Pp). reflexivity.
Qed.

Lemma ranked_selections_by_measure_witness :
  (forall g, In g (best_selling stable_argsort (enrich [row_B; row_zero_sales; row_A])) ->
     In g (prod_agg (enrich [row_B; row_zero_sales; row_A])) /\
     forall g', In g' (prod_agg (enrich [row_B; row_zero_sales; row_A])) -> g' <> g ->
                fle (prod_Sales g') (prod_Sales g)) /\
  List.length (best_selling stable_argsort (enrich [row_B; row_zero_sales; row_A]))
  = Nat.min 1 (List.length (prod_agg (enrich [row_B; row_zero_sales; row_A]))) /\
  StronglySorted (fun a b => fle (cust_Profit b) (cust_Profit a))
    (top_cust_profit stable_argsort (enrich [row_B; row_zero_sales; row_A])).
Proof.
  assert (Hs : is_argsort
                 (rev (map prod_Sales (prod_agg (enrich [row_B; row_zero_sales; row_A]))))
                 (stable_argsort
                    (rev (map prod_Sales (prod_agg (enrich [row_B; row_zero_sales; row_A])))))).
  { apply (insertion_argsort_ok false). vm_compute. reflexivity. }
  assert (Hp : is_argsort
                 (rev (map cust_Profit (cust_profit (enrich [row_B; row_zero_sales; row_A]))))
                 (stable_argsort
                    (rev (map cust_Profit (cust_profit (enrich [row_B; row_zero_sales; row_A])))))).
  { apply (insertion_argsort_ok false). vm_compute. reflexivity. }
  destruct (ranked_selections_by_measure stable_argsort
              (enrich [row_B; row_zero_sales; row_A]) Hs Hp)
    as [_ [_ [M [L [_ [S _]]]]]].
  split; [exact M | split; [exact L | exact S]].
Defined.

(** C7, as stated, fails on two orders of products B and A, in that order,
    with equal sales: B comes first in the input, and the selection made with
    a sort that keeps equal values in place is A, the first key of the group
    table; likewise customer Bob, first in the input, is listed after Ann of
    equal profit.  No sort can help: the orders taken as B, A and as A, B give the same
    group table and so the same selection, which is against the rule on one of
    the two. *)
Lemma tie_break_counterexample :
  (first_row (fun r => Product_Name (src r)) "B" (enrich [row_B; row_A]) = Some 0%nat /\
   first_row (fun r => Product_Name (src r)) "A" (enrich [row_B; row_A]) = Some 1%nat /\
   map prod_Product_Name (prod_agg (enrich [row_B; row_A])) = ["A"; "B"] /\
   map prod_Sales (prod_agg (enrich [row_B; row_A])) = [10%float; 10%float] /\
   product_metric (best_selling stable_argsort (enrich [row_B; row_A])) = "A" /\
   ~ sales_ties_rule stable_argsort (enrich [row_B; row_A]) /\
   first_row (fun r => Customer_Name (src r)) "Bob" (enrich [row_B; row_A]) = Some 0%nat /\
   map cust_Profit (cust_profit (enrich [row_B; row_A])) = [3%float; 3%float] /\
   map cust_Customer_Name (top_cust_profit stable_argsort (enrich [row_B; row_A]))
   = ["Ann"; "Bob"] /\
   ~ profit_ties_rule stable_argsort (enrich [row_B; row_A])) /\
  ~ (exists argsort : list float -> list nat,
       is_argsort [10%float; 10%float] (argsort [10%float; 10%float]) /\
       sales_ties_rule argsort (enrich [row_B; row_A]) /\
       sales_ties_rule argsort (enrich [row_A; row_B])).
Proof.
  pose (gA := mkProd "A" 10 3 0). pose (gB := mkProd "B" 10 3 0).
  assert (Agg1 : prod_agg (enrich [row_B; row_A]) = [gA; gB]) by reflexivity.
  assert (Agg2 : prod_agg (enrich [row_A; row_B]) = [gA; gB]) by reflexivity.
  split.
  - repeat (split; [reflexivity|]).
    split; [|repeat (split; [reflexivity|])].
    + intros H. unfold sales_ties_rule, ties_by_input_order in H.
      specialize (H gB gA). rewrite Agg1 in H.
      assert (F : before (position prod_Product_Name (prod_Product_Name gB)
                            (best_selling stable_argsort (enrich [row_B; row_A])))
                         (position prod_Product_Name (prod_Product_Name gA)
                            (best_selling stable_argsort (enrich [row_B; row_A])))
                  = true).
      { apply H.
        - right. left. reflexivity.
        - left. reflexivity.
        - reflexivity.
        - reflexivity. }
      vm_compute in F. discriminate.
    + intros H. unfold profit_ties_rule, ties_by_input_order in H.
      specialize (H (mkCust "Bob" 3) (mkCust "Ann" 3)).
      assert (F : before (position cust_Customer_Name "Bob"
                            (top_cust_profit stable_argsort (enrich [row_B; row_A])))
                         (position cust_Customer_Name "Ann"
                            (top_cust_profit stable_argsort (enrich [row_B; row_A])))
                  = true).
      { apply H.
        - right. left. reflexivity.
        - left. reflexivity.
        - reflexivity.
        - reflexivity. }
      vm_compute in F. discriminate.
  - intros [argsort [[P _] [C1 C2]]].
    assert (B1 : best_selling argsort (enrich [row_B; row_A])
                 = head 1 (take [gA; gB]
                             (rev (take [1; 0]%nat (argsort [10%float; 10%float])) ++ [])))
      by reflexivity.
    assert (B2 : best_selling argsort (enrich [row_A; row_B])
                 = head 1 (take [gA; gB]
                             (rev (take [1; 0]%nat (argsort [10%float; 10%float])) ++ [])))
      by reflexivity.
    unfold sales_ties_rule, ties_by_input_order in C1, C2.
    rewrite B1, Agg1 in C1. rewrite B2, Agg2 in C2.
    simpl in P. apply Permutation_sym, Permutation_length_2_inv in P.
    destruct P as [E | E]; rewrite E in C1, C2.
    + assert (F : before (position prod_Product_Name (prod_Product_Name gB) [gA])
                         (position prod_Product_Name (prod_Product_Name gA) [gA]) = true).
      { apply (C1 gB gA).
        - right. left. reflexivity.
        - left. reflexivity.
        - reflexivity.
        - reflexivity. }
      vm_compute in F. discriminate.
    + assert (F : before (position prod_Product_Name (prod_Product_Name gA) [gB])
                         (position prod_Product_Name (prod_Product_Name gB) [gB]) = true).
      { apply (C2 gA gB).
        - left. reflexivity.
        - left. reflexivity.
        - reflexivity.
        - reflexivity. }
      vm_compute in F. discriminate.
Qed.

(** * Further properties of the pipeline *)

(** ** The orders on timestamps and on pairs of strings *)

Lemma ts_cmp_Lt_iff (a b : Timestamp) :
  ts_cmp a b = Lt <->
  year (ts_date a) < year (ts_date b) \/
  (year (ts_date a) = year (ts_date b) /\
   (month (ts_date a) < month (ts_date b) \/
    (month (ts_date a) = month (ts_date b) /\
     (day (ts_date a) < day (ts_date b) \/
      (day (ts_date a) = day (ts_date b) /\ ts_nanos a < ts_nanos b))))).
Proof.
  unfold ts_cmp.
  destruct (Z.compare_spec (year (ts_date a)) (year (ts_date b)));
    destruct (Z.compare_spec (month (ts_date a)) (month (ts_date b)));
    destruct (Z.compare_spec (day (ts_date a)) (day (ts_date b)));
    destruct (Z.compare_spec (ts_nanos a) (ts_nanos b));
    split; intros H'; try discriminate; try reflexivity; try lia.
Qed.

Lemma ts_cmp_Eq_iff (a b : Timestamp) : ts_cmp a b = Eq <-> a = b.
Proof.
  split.
  - destruct a as [[ya ma da] na], b as [[yb mb db] nb]. unfold ts_cmp. simpl.
    destruct (Z.compare_spec ya yb); try discriminate.
    destruct (Z.compare_spec ma mb); try discriminate.
    destruct (Z.compare_spec da db); try discriminate.
    destruct (Z.compare_spec na nb); try discriminate.
    intros _. subst. reflexivity.
  - intros ->. unfold ts_cmp. rewrite !Z.compare_refl. reflexivity.
Qed.

Lemma ts_cmp_swap (a b : Timestamp) : ts_cmp a b = CompOpp (ts_cmp b a).
Proof.
  unfold ts_cmp.
  rewrite (Z.compare_antisym (year (ts_date a)) (year (ts_date b))).
  rewrite (Z.compare_antisym (month (ts_date a)) (month (ts_date b))).
  rewrite (Z.compare_antisym (day (ts_date a)) (day (ts_date b))).
  rewrite (Z.compare_antisym (ts_nanos a) (ts_nanos b)).
  destruct (year (ts_date a) ?= year (ts_date b));
    destruct (month (ts_date a) ?= month (ts_date b));
    destruct (day (ts_date a) ?= day (ts_date b));
    destruct (ts_nanos a ?= ts_nanos b); reflexivity.
Qed.

Lemma ts_cmp_order : KeyOrder ts_cmp.
Proof.
  constructor.
  - apply ts_cmp_Eq_iff.
  - apply ts_cmp_swap.
  - intros a b c H1 H2. apply ts_cmp_Lt_iff in H1, H2. apply ts_cmp_Lt_iff. lia.
Qed.

Lemma pair_cmp_order : KeyOrder pair_cmp.
Proof.
  pose proof str_cmp_order as [Heq Hswap Htrans].
  constructor.
  - intros [a1 a2] [b1 b2]. unfold pair_cmp. simpl. split.
    + destruct (str_cmp a1 b1) eqn:E1; try discriminate.
      intros E2. apply Heq in E1, E2. subst. reflexivity.
    + intros E. injection E as -> ->.
      rewrite (proj2 (Heq b1 b1) eq_refl). apply Heq. reflexivity.
  - intros [a1 a2] [b1 b2]. unfold pair_cmp. simpl.
    rewrite (Hswap a1 b1). destruct (str_cmp b1 a1); simpl; auto.
  - intros [a1 a2] [b1 b2] [c1 c2]. unfold pair_cmp. simpl.
    destruct (str_cmp a1 b1) eqn:E1; try discriminate;
      destruct (str_cmp b1 c1) eqn:E2; try discriminate.
    + apply Heq in E1, E2. subst. rewrite (proj2 (Heq c1 c1) eq_refl).
      apply Htrans.
    + apply Heq in E1. subst. rewrite E2. reflexivity.
    + apply Heq in E2. subst. rewrite E1. reflexivity.
    + rewrite (Htrans _ _ _ E1 E2). reflexivity.
Qed.

(** ** Group tables and the headline metrics *)

Lemma df_filtered_In (f : FilterSpec) (df : list Row) (e : Row) :
  In e (df_filtered f df) <-> In e df /\ mask_row f e = true.
Proof.
  unfold df_filtered, mask. rewrite boolean_index_map. apply filter_In.
Qed.

Lemma pipeline_row (to_datetime : string -> option Timestamp) (f : FilterSpec)
    (raw : list RawRow) (e : Row) :
  In e (pipeline to_datetime f raw) ->
  (exists t, Order_Date (src e) = Some t /\
             order_month e = Some (midnight (year (ts_date t)) (month (ts_date t)) 1)) /\
  In (Region (src e)) (regions f) /\ In (Ship_Mode (src e)) (ship_modes f).
Proof.
  unfold pipeline. intros H. apply df_filtered_In in H. destruct H as [Hin M].
  apply mask_row_included in M. destruct M as [d [Ed [_ [_ [Hr Hm]]]]].
  apply in_preprocess in Hin. destruct Hin as [r [_ ->]].
  split; [|split; assumption].
  simpl in *. destruct (to_datetime_cell to_datetime (Order_Date r)) as [t|].
  - exists t. split; reflexivity.
  - discriminate.
Qed.

(** X2: on the filtered table the monthly series has one point for each
    (year, month) in which a kept order falls, keyed by midnight of the first
    of that month, in strictly increasing time order; the Sales-vs-Profit
    series has the same months. *)
Theorem monthly_series (to_datetime : string -> option Timestamp)
    (f : FilterSpec) (raw : list RawRow) :
  (forall k, In k (map fst (monthly (pipeline to_datetime f raw))) <->
     exists e t, In e (pipeline to_datetime f raw) /\
                 Order_Date (src e) = Some t /\
                 k = midnight (year (ts_date t)) (month (ts_date t)) 1) /\
  StronglySorted (fun a b => ts_cmp a b = Lt)
    (map fst (monthly (pipeline to_datetime f raw))) /\
  map ta_order_month (time_agg (pipeline to_datetime f raw))
  = map fst (monthly (pipeline to_datetime f raw)).
Proof.
  set (d := pipeline to_datetime f raw).
  assert (Keys : map fst (monthly d) = group_keys ts_cmp order_month d).
  { unfold monthly, groupby. rewrite map_map. simpl. apply map_id. }
  split; [|split].
  - intros k. rewrite Keys, (group_keys_In ts_cmp ts_cmp_order). split.
    + intros [e [He E]].
      destruct (pipeline_row _ _ _ _ He) as [[t [Et Em]] _].
      exists e, t. split; [exact He|]. split; [exact Et|].
      rewrite Em in E. injection E as <-. reflexivity.
    + intros [e [t [He [Et ->]]]]. exists e. split; [exact He|].
      destruct (pipeline_row _ _ _ _ He) as [[t' [Et' Em]] _].
      rewrite Et in Et'. injection Et' as <-. exact Em.
  - rewrite Keys. apply group_keys_sorted. exact ts_cmp_order.
  - rewrite Keys. unfold time_agg, groupby. rewrite map_map. simpl. apply map_id.
Qed.



(** ** Two grouping columns *)

Lemma pair_key_Some (k1 k2 : Row -> option string) (r : Row) (a b : string) :
  pair_key k1 k2 r = Some (a, b) <-> k1 r = Some a /\ k2 r = Some b.
Proof.
  unfold pair_key. destruct (k1 r) as [x|], (k2 r) as [y|]; split;
    try (intros [H1 H2]); try discriminate; try intros H.
  - injection H as -> ->. auto.
  - injection H1 as ->. injection H2 as ->. reflexivity.
Qed.

Section PairTables.

Variable k1 k2 : Row -> option string.
Context {A : Type}.
Variable agg : string * string -> list Row -> A.
Variable name : A -> string * string.
Hypothesis name_agg : forall k g, name (agg k g) = k.

(** A table grouped by two columns has a cell exactly for the pairs of
    values that occur together, in ascending order of the pair. *)
Lemma pair_table_cells (df : list Row) :
  (forall g, In g (groupby pair_cmp (pair_key k1 k2) agg df) ->
     exists r, In r df /\ k1 r = Some (fst (name g)) /\ k2 r = Some (snd (name g))) /\
  (forall r a b, In r df -> k1 r = Some a -> k2 r = Some b ->
     exists g, In g (groupby pair_cmp (pair_key k1 k2) agg df) /\ name g = (a, b)) /\
  StronglySorted (fun a b => pair_cmp a b = Lt)
    (map name (groupby pair_cmp (pair_key k1 k2) agg df)).
Proof.
  split; [|split].
  - intros g Hg. unfold groupby in Hg.
    apply in_map_iff in Hg. destruct Hg as [[a b] [<- Hk]]. rewrite name_agg. simpl.
    apply (group_keys_In pair_cmp pair_cmp_order) in Hk.
    destruct Hk as [r [Hr E]]. apply pair_key_Some in E. exists r. tauto.
  - intros r a b Hr Ea Eb.
    exists (agg (a, b) (group_rows pair_cmp (pair_key k1 k2) df (a, b))).
    split; [|apply name_agg].
    unfold groupby. apply in_map_iff. exists (a, b).
    split; [reflexivity|].
    apply (group_keys_In pair_cmp pair_cmp_order). exists r.
    split; [exact Hr|]. apply pair_key_Some. auto.
  - unfold groupby. rewrite map_map.
    rewrite (map_ext _ (fun x => x)) by (intros k; apply name_agg).
    rewrite map_id. apply group_keys_sorted. exact pair_cmp_order.
Qed.

End PairTables.

(** X4: the Region-by-Segment table has a cell exactly for the (region,
    segment) pairs of the rows where both are non-null, so a row whose Region
    or Segment is null is in no cell of the stacked bars; the cells are in
    ascending (Region, Segment) order, each pair once. *)
Theorem stacked_bar_cells (df : list Row) :
  (forall g, In g (reg_seg df) ->
     exists r, In r df /\ Region (src r) = Some (rs_Region g) /\
               Segment (src r) = Some (rs_Segment g)) /\
  (forall r a b, In r df -> Region (src r) = Some a -> Segment (src r) = Some b ->
     exists g, In g (reg_seg df) /\ rs_Region g = a /\ rs_Segment g = b) /\
  StronglySorted (fun a b => pair_cmp a b = Lt)
    (map (fun g => (rs_Region g, rs_Segment g)) (reg_seg df)).
Proof.
  destruct (pair_table_cells (fun r => Region (src r)) (fun r => Segment (src r))
              (fun k g => mkRegSeg (fst k) (snd k)
                            (nansum (map (fun r => Sales (src r)) g)))
              (fun g => (rs_Region g, rs_Segment g))
              (fun k g => match k with (a, b) => eq_refl end) df) as [C1 [C2 C3]].
  split; [exact C1|]. split; [|exact C3].
  intros r a b Hr Ea Eb. destruct (C2 r a b Hr Ea Eb) as [g [Hg E]].
  exists g. injection E as E1 E2. auto.
Qed.

(** ** Bounds on the headline metrics *)

Lemma dropna_length {A : Type} (l : list (option A)) :
  (List.length (dropna l) <= List.length l)%nat.
Proof.
  induction l as [|c l IH]; simpl; [lia|].
  destruct c; simpl; lia.
Qed.

Lemma nunique_bounds (l : list (option string)) :
  0 <= nunique l <= Z.of_nat (List.length l).
Proof.
  unfold nunique. split; [lia|].
  apply Nat2Z.inj_le.
  eapply Nat.le_trans; [|apply dropna_length].
  apply NoDup_incl_length; [apply NoDup_nodup|].
  intros x Hx. apply nodup_In in Hx. exact Hx.
Qed.

Lemma filter_length_le {A : Type} (p : A -> bool) (l : list A) :
  (List.length (filter p l) <= List.length l)%nat.
Proof.
  induction l as [|x l IH]; simpl; [lia|].
  destruct (p x); simpl; lia.
Qed.

(** X5: the counts of the fulfillment tab never exceed the number of rows:
    Total Orders (distinct order ids) and Total Late Orders (late rows) lie
    between 0 and the row count, and Late Order % is a number between 0 and
    100 on every table, the empty one included. *)
Theorem fulfillment_counts_bounded (df : list Row) :
  0 <= total_orders df <= Z.of_nat (List.length df) /\
  0 <= total_customers df <= Z.of_nat (List.length df) /\
  0 <= late_orders df <= Z.of_nat (List.length df) /\
  exists q, late_pct df = Some q /\ (0 <= q)%Q /\ (q <= 100)%Q.
Proof.
  assert (L : 0 <= late_orders df <= Z.of_nat (List.length df)).
  { unfold late_orders. split; [lia|]. apply Nat2Z.inj_le. apply filter_length_le. }
  split.
  { unfold total_orders. rewrite <- (length_map (fun r => Order_ID (src r)) df).
    apply nunique_bounds. }
  split.
  { unfold total_customers. rewrite <- (length_map (fun r => Customer_ID (src r)) df).
    apply nunique_bounds. }
  split; [exact L|].
  rewrite late_pct_defined. eexists. split; [reflexivity|].
  set (n := Z.max 1 (Z.of_nat (List.length df))).
  assert (Hn : (0 < inject_Z n)%Q).
  { change 0%Q with (inject_Z 0). rewrite <- Zlt_Qlt. unfold n. lia. }
  split.
  - apply Qle_shift_div_l; [exact Hn|].
    rewrite Qmult_0_l. change 0%Q with (inject_Z 0). rewrite <- Zle_Qle. lia.
  - apply Qle_shift_div_r; [exact Hn|].
    change 100%Q with (inject_Z 100). rewrite <- inject_Z_mult, <- Zle_Qle.
    unfold n. lia.
Qed.
(** ** The sidebar *)























Lemma date_le_trans (a b c : date) : date_le a b -> date_le b c -> date_le a c.
Proof. unfold date_le. lia. Qed.

Lemma filter_implies {A : Type} (p q : A -> bool) (l : list A) :
  (forall x, In x l -> p x = true -> q x = true) ->
  Subseq (filter p l) (filter q l) /\ filter p (filter q l) = filter p l.
Proof.
  induction l as [|x l IH]; intros H; simpl.
  - split; [constructor | reflexivity].
  - destruct (IH (fun y Hy => H y (or_intror Hy))) as [S E].
    destruct (p x) eqn:Ep.
    + rewrite (H x (or_introl eq_refl) Ep). simpl. rewrite Ep, E.
      split; [constructor; exact S | reflexivity].
    + destruct (q x); simpl; rewrite ?Ep; split;
        [constructor; exact S | exact E | exact S | exact E].
Qed.

(** X8: widening the sidebar's selection never hides a row: if the date range
    of one selection lies within another's and its regions and ship modes are
    among the other's, its result is the other's result with rows removed,
    order kept, and filtering the wider result by the narrower selection gives
    the narrower result. *)
Theorem filter_monotone (f f' : FilterSpec) (df : list Row) :
  date_le (fst (date_range f')) (fst (date_range f)) ->
  date_le (snd (date_range f)) (snd (date_range f')) ->
  incl (regions f) (regions f') -> incl (ship_modes f) (ship_modes f') ->
  Subseq (df_filtered f df) (df_filtered f' df) /\
  df_filtered f (df_filtered f' df) = df_filtered f df.
Proof.
  intros Hlo Hhi Hr Hm.
  unfold df_filtered, mask. rewrite !boolean_index_map.
  apply filter_implies. intros r _ M.
  apply mask_row_included. apply mask_row_included in M.
  destruct M as [d [E [L [H [R S]]]]]. exists d.
  split; [exact E|].
  split; [apply (date_le_trans _ _ _ Hlo L)|].
  split; [apply (date_le_trans _ _ _ H Hhi)|].
  split; [apply Hr; exact R | apply Hm; exact S].
Qed.

Lemma filter_monotone_witness :
  Subseq
    (df_filtered (mkFilter (mkdate 2024 3 1, mkdate 2024 3 2) [Some "East"]
                    [Some "Standard Class"])
       (enrich [row_A; row_B; row_zero_sales]))
    (df_filtered (mkFilter march_2024 [Some "East"; Some "West"]
                    [Some "First Class"; Some "Standard Class"])
       (enrich [row_A; row_B; row_zero_sales])).
Proof.
  apply (filter_monotone
           (mkFilter (mkdate 2024 3 1, mkdate 2024 3 2) [Some "East"]
              [Some "Standard Class"])
           (mkFilter march_2024 [Some "East"; Some "West"]
              [Some "First Class"; Some "Standard Class"])).
  - unfold date_le. simpl. lia.
  - unfold date_le. simpl. lia.
  - intros x [<- | []]. simpl. auto.
  - intros x [<- | []]. simpl. auto.
Defined.

(** ** Processing time and lateness *)

(** X9: on every enriched row the processing time is null exactly when one of
    the two dates is null; otherwise it is the whole number of days (rounded
    down) between the two timestamps, and the difference of the calendar days
    when both have the same time of day.  A late row always has a processing
    time of at least 2 days, and of at least 1000 days when its ship mode is
    not in the SLA table. *)
Theorem processing_time_days (to_datetime : string -> option Timestamp)
    (df : list RawRow) (e : Row) :
  In e (preprocess to_datetime df) ->
  (Order_Processing_Time e = None <->
   Order_Date (src e) = None \/ Ship_Date (src e) = None) /\
  (forall o s, Order_Date (src e) = Some o -> Ship_Date (src e) = Some s ->
     exists p, Order_Processing_Time e = Some p /\
       p * NS_PER_DAY
       <= (toordinal (ts_date s) - toordinal (ts_date o)) * NS_PER_DAY
          + (ts_nanos s - ts_nanos o)
       < (p + 1) * NS_PER_DAY /\
       (ts_nanos s = ts_nanos o ->
        p = toordinal (ts_date s) - toordinal (ts_date o))) /\
  (Is_Late e = true -> exists p, Order_Processing_Time e = Some p /\ 2 <= p) /\
  (Is_Late e = true -> map_dict sla_map (Ship_Mode (src e)) = None ->
   exists p, Order_Processing_Time e = Some p /\ 1000 <= p).
Proof.
  intros H. apply in_preprocess in H. destruct H as [r [_ ->]]. simpl.
  destruct (to_datetime_cell to_datetime (Ship_Date r)) as [s|];
    destruct (to_datetime_cell to_datetime (Order_Date r)) as [o|]; simpl.
  - split; [split; [discriminate | intros [D | D]; discriminate]|].
    split.
    { intros o' s' Eo Es. injection Eo as <-. injection Es as <-.
      eexists. split; [reflexivity|].
      unfold NS_PER_DAY. split.
      - Z.div_mod_to_equations. lia.
      - intros En. rewrite En. Z.div_mod_to_equations. lia. }
    split.
    { intros L. eexists. split; [reflexivity|].
      destruct (Ship_Mode r) as [m|]; simpl in L.
      - destruct (String.eqb m "Same Day"); [apply Z.ltb_lt in L; lia|].
        destruct (String.eqb m "First Class"); [apply Z.ltb_lt in L; lia|].
        destruct (String.eqb m "Second Class"); [apply Z.ltb_lt in L; lia|].
        destruct (String.eqb m "Standard Class"); apply Z.ltb_lt in L; lia.
      - apply Z.ltb_lt in L. lia. }
    { intros L N. eexists. split; [reflexivity|].
      rewrite N in L. simpl in L. apply Z.ltb_lt in L. lia. }
  - split; [split; auto|]. split; [discriminate|]. split; discriminate.
  - split; [split; auto|]. split; [discriminate|]. split; discriminate.
  - split; [split; auto|]. split; [discriminate|]. split; discriminate.
Qed.

Lemma processing_time_days_witness :
  exists p, Order_Processing_Time (preprocess_row parse_dayfirst row_B) = Some p /\
            2 <= p.
Proof.
  apply (processing_time_days parse_dayfirst [row_A; row_B]
           (preprocess_row parse_dayfirst row_B)).
  - simpl. auto.
  - reflexivity.
Defined.

(** ** Ascending rankings *)

(** X10: provided the library sort orders the column, the Top-10-by-sales
    chart lists at most ten products (all of them when there are fewer) in
    ascending order of sales, each with at least the sales of every product
    not shown; the Bottom-10-by-profit chart lists at most ten products in
    ascending order of profit, each with at most the profit of every product
    not shown. *)
Theorem ascending_rankings (argsort : list float -> list nat) (df : list Row) :
  is_argsort (map prod_Sales (prod_agg df)) (argsort (map prod_Sales (prod_agg df))) ->
  is_argsort (map prod_Profit (prod_agg df)) (argsort (map prod_Profit (prod_agg df))) ->
  StronglySorted (fun a b => fle (prod_Sales a) (prod_Sales b)) (top10_sales argsort df) /\
  List.length (top10_sales argsort df) = Nat.min 10 (List.length (prod_agg df)) /\
  (forall g g', In g (top10_sales argsort df) -> In g' (prod_agg df) ->
     ~ In g' (top10_sales argsort df) -> fle (prod_Sales g') (prod_Sales g)) /\
  StronglySorted (fun a b => fle (prod_Profit a) (prod_Profit b))
    (bottom10_profit argsort df) /\
  List.length (bottom10_profit argsort df) = Nat.min 10 (List.length (prod_agg df)) /\
  (forall g g', In g (bottom10_profit argsort df) -> In g' (prod_agg df) ->
     ~ In g' (bottom10_profit argsort df) -> fle (prod_Profit g) (prod_Profit g')).
Proof.
  intros Hs Hp.
  destruct (sort_values_ascending argsort prod_Sales (prod_agg df) Hs) as [Ps Ss].
  destruct (sort_values_ascending argsort prod_Profit (prod_agg df) Hp) as [Pp Sp].
  destruct (tail_dominates _ 10 _ Ss) as [T1 T2].
  split; [exact T1|].
  split.
  { unfold top10_sales. rewrite tail_length, (Permutation_length Ps). reflexivity. }
  split.
  { intros g g' Hg Hg' Hn. apply (T2 g g' Hg); [|exact Hn].
    apply (Permutation_in _ (Permutation_sym Ps)). exact Hg'. }
  destruct (head_dominates _ 10 _ Sp) as [B1 B2].
  split; [exact B1|].
  split.
  { unfold bottom10_profit, head. rewrite length_firstn, (Permutation_length Pp).
    reflexivity. }
  intros g g' Hg Hg' Hn. apply (B2 g g' Hg); [|exact Hn].
  apply (Permutation_in _ (Permutation_sym Pp)). exact Hg'.
Qed.

Lemma ascending_rankings_witness :
  StronglySorted (fun a b => fle (prod_Sales a) (prod_Sales b))
    (top10_sales stable_argsort (enrich [row_B; row_zero_sales; row_A; row_half_sale])) /\
  List.length
    (top10_sales stable_argsort (enrich [row_B; row_zero_sales; row_A; row_half_sale]))
  = 4%nat.
Proof.
  assert (Hs : is_argsort
                 (map prod_Sales
                    (prod_agg (enrich [row_B; row_zero_sales; row_A; row_half_sale])))
                 (stable_argsort
                    (map prod_Sales
                       (prod_agg (enrich [row_B; row_zero_sales; row_A; row_half_sale]))))).
  { apply (insertion_argsort_ok false). vm_compute. reflexivity. }
  assert (Hp : is_argsort
                 (map prod_Profit
                    (prod_agg (enrich [row_B; row_zero_sales; row_A; row_half_sale])))
                 (stable_argsort
                    (map prod_Profit
                       (prod_agg (enrich [row_B; row_zero_sales; row_A; row_half_sale]))))).
  { apply (insertion_argsort_ok false). vm_compute. reflexivity. }
  destruct (ascending_rankings stable_argsort
              (enrich [row_B; row_zero_sales; row_A; row_half_sale]) Hs Hp)
    as [S [L _]].
  split; [exact S | exact L].
Defined.

Lemma float_eq_dec (x y : float) : {x = y} + {x <> y}.
Proof.
  destruct (PrimFloat.Leibniz.eqb x y) eqn:E.
  - left. apply FloatAxioms.Leibniz.eqb_spec. exact E.
  - right. intros H. apply FloatAxioms.Leibniz.eqb_spec in H. congruence.
Qed.

Lemma ProdRow_eq_dec (g h : ProdRow) : {g = h} + {g <> h}.
Proof.
  decide equality; try apply float_eq_dec. apply string_dec.
Qed.

(** X11: provided the library sort orders the sales column, the Best Selling
    Product metric reads "N/A" from an empty selection exactly when no row has
    a product name; otherwise it names a product of the table that has at
    least the sales of every other product, and the Top-10 chart holds that
    product or one with equal sales, and no other product with more. *)
Theorem best_selling_metric (argsort : list float -> list nat) (df : list Row) :
  is_argsort (rev (map prod_Sales (prod_agg df)))
             (argsort (rev (map prod_Sales (prod_agg df)))) ->
  is_argsort (map prod_Sales (prod_agg df)) (argsort (map prod_Sales (prod_agg df))) ->
  (best_selling argsort df = [] <-> forall r, In r df -> Product_Name (src r) = None) /\
  (product_metric (best_selling argsort df) = "N/A" \/
   exists r, In r df /\
             Product_Name (src r) = Some (product_metric (best_selling argsort df))) /\
  (forall g, In g (best_selling argsort df) ->
     product_metric (best_selling argsort df) = prod_Product_Name g /\
     (exists r, In r df /\ Product_Name (src r) = Some (prod_Product_Name g)) /\
     (forall g', In g' (prod_agg df) -> g' <> g -> fle (prod_Sales g') (prod_Sales g)) /\
     (exists h, In h (top10_sales argsort df) /\
                (h = g \/ (prod_Sales h =? prod_Sales g)%float = true)) /\
     (forall h, In h (top10_sales argsort df) -> h <> g ->
                fle (prod_Sales h) (prod_Sales g))).
Proof.
  intros Hd Ha.
  destruct (sort_values_descending argsort prod_Sales (prod_agg df) Hd) as [Pd Sd].
  destruct (sort_values_ascending argsort prod_Sales (prod_agg df) Ha) as [Pa Sa].
  assert (Names : forall g, In g (prod_agg df) ->
                  exists r, In r df /\ Product_Name (src r) = Some (prod_Product_Name g)).
  { intros g Hg. unfold prod_agg, groupby in Hg.
    apply in_map_iff in Hg. destruct Hg as [k [<- Hk]]. simpl.
    apply (group_keys_In str_cmp str_cmp_order) in Hk. exact Hk. }
  split; [|split].
  - split.
    + intros E r Hr.
      destruct (Product_Name (src r)) as [k|] eqn:Ek; [|reflexivity].
      exfalso.
      assert (Hk : In k (group_keys str_cmp (fun r => Product_Name (src r)) df))
        by (apply (group_keys_In str_cmp str_cmp_order); exists r; auto).
      assert (Hg : In (mkProd k
                         (nansum (map (fun r => Sales (src r))
                            (group_rows str_cmp (fun r => Product_Name (src r)) df k)))
                         (nansum (map (fun r => Profit (src r))
                            (group_rows str_cmp (fun r => Product_Name (src r)) df k)))
                         (nansum (map (fun r => Quantity (src r))
                            (group_rows str_cmp (fun r => Product_Name (src r)) df k))))
                      (prod_agg df)).
      { unfold prod_agg, groupby. apply in_map_iff. exists k. auto. }
      apply (Permutation_in _ (Permutation_sym Pd)) in Hg.
      unfold best_selling, head in E.
      destruct (sort_values argsort prod_Sales false (prod_agg df)); [destruct Hg|].
      discriminate.
    + intros H. unfold best_selling, head.
      destruct (sort_values argsort prod_Sales false (prod_agg df)) as [|g t] eqn:E;
        [reflexivity|].
      exfalso.
      assert (Hg : In g (prod_agg df))
        by (apply (Permutation_in _ Pd); left; reflexivity).
      destruct (Names g Hg) as [r [Hr Er]]. rewrite (H r Hr) in Er. discriminate.
  - unfold best_selling, head.
    destruct (sort_values argsort prod_Sales false (prod_agg df)) as [|g t] eqn:E;
      [left; reflexivity | right].
    simpl. apply Names. apply (Permutation_in _ Pd). left. reflexivity.
  - intros g Hg.
    assert (Gin : In g (prod_agg df))
      by (apply (Permutation_in _ Pd); apply (head_In 1); exact Hg).
    assert (Gmax : forall g', In g' (prod_agg df) -> g' <> g ->
                              fle (prod_Sales g') (prod_Sales g)).
    { intros g' Hg' Hne.
      destruct (head_one_maximal _ _ Sd g g' Hg) as [E | L];
        [|contradiction | exact L].
      apply (Permutation_in _ (Permutation_sym Pd)). exact Hg'. }
    split.
    { unfold best_selling, head in *.
      destruct (sort_values argsort prod_Sales false (prod_agg df)) as [|g0 t];
        [destruct Hg|].
      simpl in Hg. destruct Hg as [<- | []]. reflexivity. }
    split; [apply Names; exact Gin|].
    split; [exact Gmax|].
    split.
    + assert (Ne : sort_values argsort prod_Sales true (prod_agg df) <> []).
      { intros E. rewrite E in Pa. apply Permutation_nil in Pa.
        rewrite Pa in Gin. destruct Gin. }
      destruct (exists_last Ne) as [l [h El]].
      exists h. split.
      * unfold top10_sales. rewrite El. apply tail_last. lia.
      * assert (Hin : In h (prod_agg df)).
        { apply (Permutation_in _ Pa). rewrite El. apply in_or_app. right. left.
          reflexivity. }
        destruct (ProdRow_eq_dec h g) as [E | Hne]; [left; exact E | right].
        assert (Gs : In g (sort_values argsort prod_Sales true (prod_agg df)))
          by (apply (Permutation_in _ (Permutation_sym Pa)); exact Gin).
        rewrite El in Gs, Sa. apply in_app_or in Gs.
        destruct Gs as [Gs | [E | []]]; [|contradiction].
        apply StronglySorted_app_inv in Sa. destruct Sa as [_ Sa].
        apply leb_antisym_eqb; [apply Gmax; assumption|].
        apply Sa; [exact Gs | left; reflexivity].
    + intros h Hh Hne. apply Gmax; [|exact Hne]. apply (Permutation_in _ Pa).
      unfold top10_sales, tail in Hh.
      rewrite <- (firstn_skipn
                    (List.length (sort_values argsort prod_Sales true (prod_agg df)) - 10)
                    (sort_values argsort prod_Sales true (prod_agg df))).
      apply in_or_app. right. exact Hh.
Qed.

Lemma best_selling_metric_witness :
  product_metric
    (best_selling stable_argsort (enrich [row_B; row_zero_sales; row_A; row_half_sale]))
  = "A" /\
  (exists r, In r (enrich [row_B; row_zero_sales; row_A; row_half_sale]) /\
             Product_Name (src r) = Some "A") /\
  (forall g', In g' (prod_agg (enrich [row_B; row_zero_sales; row_A; row_half_sale])) ->
     g' <> mkProd "A" 10 3 0 -> fle (prod_Sales g') 10) /\
  (exists h, In h (top10_sales stable_argsort
                     (enrich [row_B; row_zero_sales; row_A; row_half_sale])) /\
             (h = mkProd "A" 10 3 0 \/ (prod_Sales h =? 10)%float = true)).
Proof.
  assert (Hd : is_argsort
                 (rev (map prod_Sales
                         (prod_agg (enrich [row_B; row_zero_sales; row_A; row_half_sale]))))
                 (stable_argsort
                    (rev (map prod_Sales
                            (prod_agg (enrich [row_B; row_zero_sales; row_A; row_half_sale])))))).
  { apply (insertion_argsort_ok false). vm_compute. reflexivity. }
  assert (Ha : is_argsort
                 (map prod_Sales
                    (prod_agg (enrich [row_B; row_zero_sales; row_A; row_half_sale])))
                 (stable_argsort
                    (map prod_Sales
                       (prod_agg (enrich [row_B; row_zero_sales; row_A; row_half_sale]))))).
  { apply (insertion_argsort_ok false). vm_compute. reflexivity. }
  destruct (best_selling_metric stable_argsort
              (enrich [row_B; row_zero_sales; row_A; row_half_sale]) Hd Ha)
    as [_ [_ G]].
  destruct (G (mkProd "A" 10 3 0)) as [M [N [Mx [Hh _]]]].
  - vm_compute. left. reflexivity.
  - split; [exact M|]. split; [exact N|]. split; [exact Mx | exact Hh].
Defined.

(** ** Top customer and top region *)

Lemma SumRow_eq_dec (g h : SumRow) : {g = h} + {g <> h}.
Proof.
  decide equality; [apply float_eq_dec | apply string_dec].
Qed.




(** ** load_data *)

(** X14: once a path has been loaded, every later load of that path returns
    the same enriched table and leaves the cache as it is, whatever the file
    holds by then; a first load returns the enrichment of what the file held,
    and the entries of the other paths are untouched. *)
Theorem load_data_cached (read_csv : string -> option (list RawRow))
    (to_datetime : string -> option Timestamp) (path : string)
    (cache cache' : Cache) (df : list Row) :
  load_data read_csv to_datetime path cache = (Some df, cache') ->
  (forall read_csv', load_data read_csv' to_datetime path cache' = (Some df, cache')) /\
  (dict_get cache path = None ->
   exists raw, read_csv path = Some raw /\ df = preprocess to_datetime raw) /\
  (forall p, p <> path -> dict_get cache' p = dict_get cache p).
Proof.
  unfold load_data. intros H.
  destruct (dict_get cache path) as [d|] eqn:E.
  - injection H as <- <-.
    split; [intros rc; rewrite E; reflexivity|].
    split; [discriminate | reflexivity].
  - destruct (read_csv path) as [raw|] eqn:R; [|discriminate].
    injection H as <- <-.
    split; [|split].
    + intros rc. simpl. rewrite String.eqb_refl. reflexivity.
    + intros _. exists raw. split; reflexivity.
    + intros p Hp. simpl. apply String.eqb_neq in Hp. rewrite Hp. reflexivity.
Qed.

Lemma load_data_cached_witness :
  load_data (fun _ => None) parse_dayfirst "orders.csv"
    [("orders.csv", enrich [row_A; row_B])]
  = (Some (enrich [row_A; row_B]), [("orders.csv", enrich [row_A; row_B])]).
Proof.
  apply (load_data_cached (fun _ => Some [row_A; row_B]) parse_dayfirst "orders.csv"
           [] [("orders.csv", enrich [row_A; row_B])] (enrich [row_A; row_B])).
  reflexivity.
Defined.

(** ** The priority table and the group means *)

Lemma nunique_zero (l : list (option string)) :
  nunique l = 0 <-> forall c, In c l -> c = None.
Proof.
  unfold nunique. split.
  - intros H c Hc. destruct c as [x|]; [|reflexivity]. exfalso.
    assert (Hx : In x (nodup string_dec (dropna l)))
      by (apply nodup_In, dropna_In; exact Hc).
    destruct (nodup string_dec (dropna l)); [destruct Hx | simpl in H; lia].
  - intros H.
    destruct (nodup string_dec (dropna l)) as [|x t] eqn:E; [reflexivity|].
    exfalso.
    assert (Hx : In x (nodup string_dec (dropna l))) by (rewrite E; left; reflexivity).
    apply nodup_In, dropna_In in Hx. specialize (H _ Hx). discriminate.
Qed.

Lemma nunique_incl (l l' : list (option string)) :
  incl l l' -> nunique l <= nunique l'.
Proof.
  intros H. unfold nunique. apply Nat2Z.inj_le.
  apply NoDup_incl_length; [apply NoDup_nodup|].
  intros x Hx. apply nodup_In, dropna_In in Hx.
  apply nodup_In, dropna_In. apply H. exact Hx.
Qed.

(** X15: every bar of the Order-Count-by-Priority chart stands for a priority
    that occurs in the table; its count of distinct order ids is at least 0
    and at most the Total Orders metric, and is 0 exactly when every row of
    that priority lacks an order id.  The bars are in ascending order of the
    priority's name, each priority once. *)
Theorem priority_table (df : list Row) :
  (forall g, In g (pri df) ->
     (exists r, In r df /\ Order_Priority (src r) = Some (pri_Order_Priority g)) /\
     0 <= Order_Count g <= total_orders df /\
     (Order_Count g = 0 <->
      forall r, In r df -> Order_Priority (src r) = Some (pri_Order_Priority g) ->
                Order_ID (src r) = None)) /\
  StronglySorted (fun a b => str_cmp a b = Lt) (map pri_Order_Priority (pri df)).
Proof.
  split.
  - intros g Hg. unfold pri, groupby in Hg.
    apply in_map_iff in Hg. destruct Hg as [k [<- Hk]]. simpl.
    split; [apply (group_keys_In str_cmp str_cmp_order) in Hk; exact Hk|].
    split.
    + split; [unfold nunique; lia|].
      unfold total_orders. apply nunique_incl.
      intros c Hc. apply in_map_iff in Hc. destruct Hc as [r [<- Hr]].
      apply (group_rows_In str_cmp str_cmp_order) in Hr.
      apply (in_map (fun r => Order_ID (src r))). tauto.
    + rewrite nunique_zero. split.
      * intros H r Hr E. apply (H (Order_ID (src r))).
        apply (in_map (fun r => Order_ID (src r))).
        apply (group_rows_In str_cmp str_cmp_order). auto.
      * intros H c Hc. apply in_map_iff in Hc. destruct Hc as [r [<- Hr]].
        apply (group_rows_In str_cmp str_cmp_order) in Hr. apply H; tauto.
  - unfold pri, groupby. rewrite map_map. simpl. rewrite map_id.
    apply group_keys_sorted. exact str_cmp_order.
Qed.

(** ** Means of day counts *)

Lemma Zsum_bounds (xs : list Z) (lo hi a : Z) :
  (forall x, In x xs -> lo <= x <= hi) ->
  a + lo * Z.of_nat (List.length xs) <= fold_left Z.add xs a
  <= a + hi * Z.of_nat (List.length xs).
Proof.
  revert a. induction xs as [|x xs IH]; intros a H.
  - simpl. lia.
  - specialize (IH (a + x) (fun y Hy => H y (or_intror Hy))).
    destruct (H x (or_introl eq_refl)) as [Lx Ux].
    simpl fold_left. simpl List.length. rewrite Nat2Z.inj_succ. lia.
Qed.

Lemma mean_days_bounds (l : list (option Z)) (lo hi : Z) :
  (forall x, In (Some x) l -> lo <= x <= hi) ->
  (mean_days l = NaN <-> forall c, In c l -> c = None) /\
  is_inf (mean_days l) = false /\
  (forall m, mean_days l = Fin m -> (inject_Z lo <= m)%Q /\ (m <= inject_Z hi)%Q).
Proof.
  intros H. unfold mean_days.
  destruct (dropna l) as [|x xs] eqn:E.
  - split; [|split; [reflexivity | discriminate]].
    split; [|reflexivity].
    intros _ c Hc. destruct c as [y|]; [|reflexivity].
    apply dropna_In in Hc. rewrite E in Hc. destruct Hc.
  - split; [|split; [reflexivity|]].
    + split; [discriminate|]. intros N. exfalso.
      assert (Hx : In (Some x) l) by (apply dropna_In; rewrite E; left; reflexivity).
      specialize (N _ Hx). discriminate.
    + intros m Em. injection Em as <-.
      change ((inject_Z lo <= inject_Z (fold_left Z.add (x :: xs) 0%Z)
                              / inject_Z (Z.of_nat (List.length (x :: xs))))%Q /\
              (inject_Z (fold_left Z.add (x :: xs) 0%Z)
               / inject_Z (Z.of_nat (List.length (x :: xs))) <= inject_Z hi)%Q).
      assert (B : forall y, In y (x :: xs) -> lo <= y <= hi).
      { intros y Hy. apply H. apply dropna_In. rewrite E. exact Hy. }
      assert (Pos : (0 < Z.of_nat (List.length (x :: xs)))) by (simpl List.length; lia).
      generalize dependent (x :: xs). intros ys _ B Pos.
      destruct (Zsum_bounds ys lo hi 0 B) as [L U].
      assert (PosQ : (0 < inject_Z (Z.of_nat (List.length ys)))%Q).
      { change 0%Q with (inject_Z 0). rewrite <- Zlt_Qlt. exact Pos. }
      split.
      * apply Qle_shift_div_l; [exact PosQ|].
        rewrite <- inject_Z_mult, <- Zle_Qle. lia.
      * apply Qle_shift_div_r; [exact PosQ|].
        rewrite <- inject_Z_mult, <- Zle_Qle. lia.
Qed.

(** X16: in the Average-Processing-Time-by-Ship-Mode chart every bar stands
    for a ship mode of the table; its value is null exactly when no row of
    that mode has a processing time, and otherwise lies between any two
    bounds that hold for every processing time of the table. *)
Theorem mode_average_within_range (df : list Row) (lo hi : Z) (k : string)
    (m : exact64) :
  (forall r p, In r df -> Order_Processing_Time r = Some p -> lo <= p <= hi) ->
  In (k, m) (mode_avg df) ->
  (exists r, In r df /\ Ship_Mode (src r) = Some k) /\
  is_inf m = false /\
  (m = NaN <->
   forall r, In r df -> Ship_Mode (src r) = Some k -> Order_Processing_Time r = None) /\
  (forall q, m = Fin q -> (inject_Z lo <= q)%Q /\ (q <= inject_Z hi)%Q).
Proof.
  intros H Hin. unfold mode_avg, groupby in Hin.
  apply in_map_iff in Hin. destruct Hin as [k' [E Hk]]. injection E as -> <-.
  split; [apply (group_keys_In str_cmp str_cmp_order) in Hk; exact Hk|].
  set (g := group_rows str_cmp (fun r => Ship_Mode (src r)) df k).
  destruct (mean_days_bounds (processing_times g) lo hi) as [N [I B]].
  { intros x Hx. unfold processing_times in Hx.
    apply in_map_iff in Hx. destruct Hx as [r [Ex Hr]].
    apply (group_rows_In str_cmp str_cmp_order) in Hr. destruct Hr as [Hr _].
    apply (H r x Hr Ex). }
  split; [exact I|]. split; [|exact B].
  rewrite N. unfold processing_times. split.
  - intros A r Hr Em.
    apply (A (Order_Processing_Time r)).
    apply (in_map Order_Processing_Time).
    apply (group_rows_In str_cmp str_cmp_order). auto.
  - intros A c Hc. apply in_map_iff in Hc. destruct Hc as [r [<- Hr]].
    apply (group_rows_In str_cmp str_cmp_order) in Hr. destruct Hr as [Hr Em].
    apply (A r Hr Em).
Qed.

Lemma mode_average_within_range_witness :
  exists q, In ("Standard Class", Fin q) (mode_avg (enrich [row_A; row_B; row_zero_sales])) /\
            (inject_Z 1 <= q)%Q /\ (q <= inject_Z 6)%Q.
Proof.
  assert (Hin : In ("Standard Class", Fin (11 # 2))
                  (mode_avg (enrich [row_A; row_B; row_zero_sales])))
    by (right; left; reflexivity).
  assert (H : forall r p, In r (enrich [row_A; row_B; row_zero_sales]) ->
                          Order_Processing_Time r = Some p -> 1 <= p <= 6).
  { intros r p [<- | [<- | [<- | []]]] E; vm_compute in E; injection E as <-; lia. }
  exists (11 # 2). split; [exact Hin|].
  exact (proj2 (proj2 (proj2
           (mode_average_within_range (enrich [row_A; row_B; row_zero_sales]) 1 6
              "Standard Class" (Fin (11 # 2)) H Hin))) _ eq_refl).
Defined.

(** ** Treemap and donut *)

(** X18: the Sales-by-Segment donut has a slice exactly for the segments that
    occur, in ascending order, and the Category / Sub-Category treemap a cell
    exactly for the pairs that occur together, in ascending order of the
    pair; a row that lacks the key is in neither chart. *)
Theorem donut_and_treemap_cells (df : list Row) :
  (forall g, In g (seg df) -> exists r, In r df /\ Segment (src r) = Some (sum_key g)) /\
  (forall r s, In r df -> Segment (src r) = Some s ->
     exists g, In g (seg df) /\ sum_key g = s) /\
  StronglySorted (fun a b => str_cmp a b = Lt) (map sum_key (seg df)) /\
  (forall g, In g (cat_tree df) ->
     exists r, In r df /\ Category (src r) = Some (cat_Category g) /\
               Sub_Category (src r) = Some (cat_Sub_Category g)) /\
  (forall r a b, In r df -> Category (src r) = Some a -> Sub_Category (src r) = Some b ->
     exists g, In g (cat_tree df) /\ cat_Category g = a /\ cat_Sub_Category g = b) /\
  StronglySorted (fun a b => pair_cmp a b = Lt)
    (map (fun g => (cat_Category g, cat_Sub_Category g)) (cat_tree df)).
Proof.
  destruct (pair_table_cells (fun r => Category (src r)) (fun r => Sub_Category (src r))
              (fun k g => mkCat (fst k) (snd k)
                            (nansum (map (fun r => Sales (src r)) g))
                            (nansum (map (fun r => Profit (src r)) g)))
              (fun g => (cat_Category g, cat_Sub_Category g))
              (fun k g => match k with (a, b) => eq_refl end) df) as [C1 [C2 C3]].
  split; [|split; [|split; [|split; [exact C1 | split; [|exact C3]]]]].
  - intros g Hg. unfold seg, sum_by, groupby in Hg.
    apply in_map_iff in Hg. destruct Hg as [k [<- Hk]]. simpl.
    apply (group_keys_In str_cmp str_cmp_order) in Hk. exact Hk.
  - intros r s Hr E.
    exists (mkSum s (nansum (map (fun r => Sales (src r))
                               (group_rows str_cmp (fun r => Segment (src r)) df s)))).
    split; [|reflexivity].
    unfold seg, sum_by, groupby. apply in_map_iff. exists s. split; [reflexivity|].
    apply (group_keys_In str_cmp str_cmp_order). exists r. auto.
  - unfold seg, sum_by, groupby. rewrite map_map. simpl. rewrite map_id.
    apply group_keys_sorted. exact str_cmp_order.
  - intros r a b Hr Ea Eb. destruct (C2 r a b Hr Ea Eb) as [g [Hg E]].
    exists g. injection E as E1 E2. auto.
Qed.
